(** * docs-to-md: extraction of docstrings from Python source and their
    rendering as markdown.

    The repository holds the tool twice: the package [src/docs2md/docs2md.py]
    and the older single-file script [src/doc2md.py].  Both are embedded here,
    as [Docs2md] and [Doc2md], over one model of the Python library functions
    they call ([Py]) and of the syntax trees [ast.parse] returns ([Ast]). *)

From Stdlib Require Import List String Ascii ZArith Lia Bool Arith.
From Stdlib Require Import Permutation Sorted DecimalString.
Import ListNotations.

Set Warnings "-register-all".

Local Open Scope string_scope.
Local Open Scope Z_scope.

(** ** The Python built-ins and library functions the tool calls.

    A Python [str] is a [string] holding its UTF-8 bytes. *)
Module Py.

Definition LF : ascii := Ascii.ascii_of_nat 10.
Definition SPACE : ascii := Ascii.ascii_of_nat 32.

Definition nl : string := String LF EmptyString.

Definition code (c : ascii) : nat := Ascii.nat_of_ascii c.

(** Truth value of a [str]: the empty string is falsy. *)
Definition truthy (s : string) : bool := negb (s =? "")%string.

(** [a or b] on strings. *)
Definition str_or (a b : string) : string := if truthy a then a else b.

(** [x or b] where [x] is [None] or a string. *)
Definition opt_or (x : option string) (b : string) : string :=
  match x with
  | Some a => str_or a b
  | None => b
  end.

(** [sep.join(l)]. *)
Definition join (sep : string) (l : list string) : string := String.concat sep l.

(** [str(n)] for an [int]. *)
Definition str_of_int (n : Z) : string := NilZero.string_of_int (Z.to_int n).

(** One-byte line boundaries of [str.splitlines]: LF, VT, FF, FS, GS, RS
    (CR is handled apart, because of CR LF). *)
Definition line_break1 (c : ascii) : bool :=
  let n := code c in
  (n =? 10)%nat || (n =? 11)%nat || (n =? 12)%nat
  || (n =? 28)%nat || (n =? 29)%nat || (n =? 30)%nat.

(** [splitlines_from acc s]: the lines of [acc ++ s], where [acc] is the
    beginning of the current line.  The boundaries are those of
    [str.splitlines]: the one-byte ones, CR, CR LF, and U+0085, U+2028,
    U+2029 in their UTF-8 encoding. *)
Fixpoint splitlines_from (acc : string) (s : string) : list string :=
  match s with
  | EmptyString => if truthy acc then [acc] else []
  | String c rest =>
      if (code c =? 13)%nat then
        match rest with
        | String d rest' =>
            if (code d =? 10)%nat then acc :: splitlines_from "" rest'
            else acc :: splitlines_from "" rest
        | EmptyString => acc :: splitlines_from "" rest
        end
      else if line_break1 c then acc :: splitlines_from "" rest
      else if (code c =? 194)%nat then
        match rest with
        | String d rest' =>
            if (code d =? 133)%nat then acc :: splitlines_from "" rest'
            else splitlines_from (acc ++ String c "") rest
        | EmptyString => splitlines_from (acc ++ String c "") rest
        end
      else if (code c =? 226)%nat then
        match rest with
        | String d (String e rest') =>
            if ((code d =? 128)%nat && ((code e =? 168)%nat || (code e =? 169)%nat))%bool
            then acc :: splitlines_from "" rest'
            else splitlines_from (acc ++ String c "") rest
        | _ => splitlines_from (acc ++ String c "") rest
        end
      else splitlines_from (acc ++ String c "") rest
  end.

(** [s.splitlines()]. *)
Definition splitlines (s : string) : list string := splitlines_from "" s.

(** [s.split('\n')]: never empty, [""] for the empty string. *)
Fixpoint split_nl_from (acc : string) (s : string) : list string :=
  match s with
  | EmptyString => [acc]
  | String c rest =>
      if (code c =? 10)%nat then acc :: split_nl_from "" rest
      else split_nl_from (acc ++ String c "") rest
  end.

Definition split_nl (s : string) : list string := split_nl_from "" s.

(** Index normalisation of a slice bound, for a sequence of length [len]. *)
Definition slice_index (len i : Z) : Z :=
  if i <? 0 then Z.max 0 (i + len) else Z.min i len.

(** [l[a:b]]. *)
Definition slice {A : Type} (l : list A) (a b : Z) : list A :=
  let len := Z.of_nat (List.length l) in
  let lo := slice_index len a in
  let hi := slice_index len b in
  firstn (Z.to_nat (hi - lo)) (skipn (Z.to_nat lo) l).

(** *** [textwrap.dedent] *)

Definition blank (c : ascii) : bool := ((code c =? 32)%nat || (code c =? 9)%nat)%bool.

Fixpoint all_blank (s : string) : bool :=
  match s with
  | EmptyString => true
  | String c r => blank c && all_blank r
  end.

(** The leading run of spaces and tabs of a line. *)
Fixpoint leading_blank (s : string) : string :=
  match s with
  | EmptyString => ""
  | String c r => if blank c then String c (leading_blank r) else ""
  end.

(** Longest common prefix. *)
Fixpoint common_prefix (a b : string) : string :=
  match a, b with
  | String x a', String y b' =>
      if Ascii.eqb x y then String x (common_prefix a' b') else ""
  | _, _ => ""
  end.

(** [s[n:]] for [0 <= n]. *)
Fixpoint drop (n : nat) (s : string) : string :=
  match n, s with
  | S k, String _ r => drop k r
  | _, _ => s
  end.

(** [line] without the prefix [margin], when it starts with it. *)
Definition remove_prefix (margin line : string) : string :=
  if String.prefix margin line then drop (String.length margin) line else line.

(** [textwrap.dedent(text)]: lines of blanks only become empty, the margin is
    the longest common leading run of blanks of the other non-empty lines,
    and it is removed from every line that starts with it. *)
Definition dedent (text : string) : string :=
  let lines := map (fun l => if all_blank l then "" else l) (split_nl text) in
  let indents := map leading_blank (filter truthy lines) in
  match indents with
  | [] => join nl lines
  | i :: rest =>
      let margin := fold_left common_prefix rest i in
      join nl (map (remove_prefix margin) lines)
  end.

(** *** [inspect.cleandoc], which [ast.get_docstring(node, clean=True)] applies.
    Whitespace is that of [str.isspace]: the ASCII whitespace, and U+0085,
    U+00A0, U+1680, U+2000 to U+200A, U+2028, U+2029, U+202F, U+205F and
    U+3000 in their UTF-8 encoding. *)

Definition space (c : ascii) : bool :=
  let n := code c in
  ((n =? 32)%nat || ((9 <=? n)%nat && (n <=? 13)%nat)
   || ((28 <=? n)%nat && (n <=? 31)%nat))%bool.

(** The whitespace characters of two bytes and of three bytes. *)
Definition space2 (c d : ascii) : bool :=
  ((code c =? 194)%nat && ((code d =? 133)%nat || (code d =? 160)%nat))%bool.

Definition space3 (c d e : ascii) : bool :=
  (((code c =? 225)%nat && (code d =? 154)%nat && (code e =? 128)%nat)
   || ((code c =? 226)%nat && (code d =? 128)%nat
       && (((128 <=? code e)%nat && (code e <=? 138)%nat)
           || (code e =? 168)%nat || (code e =? 169)%nat || (code e =? 175)%nat))
   || ((code c =? 226)%nat && (code d =? 129)%nat && (code e =? 159)%nat)
   || ((code c =? 227)%nat && (code d =? 128)%nat && (code e =? 128)%nat))%bool.

(** [s.lstrip()]. *)
Fixpoint lstrip (s : string) : string :=
  match s with
  | EmptyString => ""
  | String c r =>
      if space c then lstrip r
      else
        match r with
        | String d r' =>
            if space2 c d then lstrip r'
            else
              match r' with
              | String e r'' => if space3 c d e then lstrip r'' else s
              | EmptyString => s
              end
        | EmptyString => s
        end
  end.

(** A byte that continues a UTF-8 sequence takes no column. *)
Definition continuation (c : ascii) : bool :=
  ((128 <=? code c)%nat && (code c <=? 191)%nat)%bool.

Fixpoint spaces (n : nat) : string :=
  match n with
  | O => ""
  | S k => String SPACE (spaces k)
  end.

(** [s.expandtabs()], with tab stops every 8 columns; [col] is the current
    column. *)
Fixpoint expandtabs_from (col : nat) (s : string) : string :=
  match s with
  | EmptyString => ""
  | String c r =>
      if (code c =? 9)%nat then
        let incr := (8 - col mod 8)%nat in
        (spaces incr ++ expandtabs_from (col + incr) r)%string
      else if ((code c =? 10)%nat || (code c =? 13)%nat)%bool then
        String c (expandtabs_from 0 r)
      else if continuation c then String c (expandtabs_from col r)
      else String c (expandtabs_from (S col) r)
  end.

Definition expandtabs (s : string) : string := expandtabs_from 0 s.

(** [len(s)]: the number of characters, the bytes that do not continue a
    UTF-8 sequence. *)
Fixpoint len (s : string) : nat :=
  match s with
  | EmptyString => O
  | String c r => if continuation c then len r else S (len r)
  end.

(** [len(line) - len(line.lstrip())]. *)
Definition indent_of (line : string) : nat :=
  (len line - len (lstrip line))%nat.

(** [s] without the bytes at its head that continue a character. *)
Fixpoint drop_continuation (s : string) : string :=
  match s with
  | EmptyString => ""
  | String c r => if continuation c then drop_continuation r else s
  end.

(** [s[n:]] for [0 <= n], in characters. *)
Fixpoint drop_chars (n : nat) (s : string) : string :=
  match n, s with
  | S k, String _ r => drop_chars k (drop_continuation r)
  | _, _ => s
  end.

(** The minimum indentation of the non-blank lines, [None] when there is
    none ([sys.maxsize] in the library). *)
Fixpoint min_indent (lines : list string) : option nat :=
  match lines with
  | [] => None
  | l :: rest =>
      if truthy (lstrip l) then
        match min_indent rest with
        | Some m => Some (Nat.min (indent_of l) m)
        | None => Some (indent_of l)
        end
      else min_indent rest
  end.

Fixpoint drop_leading_empty (lines : list string) : list string :=
  match lines with
  | l :: rest => if truthy l then lines else drop_leading_empty rest
  | [] => []
  end.

Definition drop_trailing_empty (lines : list string) : list string :=
  rev (drop_leading_empty (rev lines)).

Definition cleandoc (doc : string) : string :=
  match split_nl (expandtabs doc) with
  | [] => ""
  | first :: others =>
      let others' :=
        match min_indent others with
        | Some margin => map (drop_chars margin) others
        | None => others
        end in
      join nl (drop_leading_empty (drop_trailing_empty (lstrip first :: others')))
  end.

(** *** [sorted(iterable, key=...)]: a stable sort on an integer key. *)
Section Sorted.
Context {A : Type} (key : A -> Z).

Fixpoint insert (x : A) (l : list A) : list A :=
  match l with
  | [] => [x]
  | y :: l' => if key x <=? key y then x :: l else y :: insert x l'
  end.

Fixpoint sorted (l : list A) : list A :=
  match l with
  | [] => []
  | x :: l' => insert x (sorted l')
  end.
End Sorted.

(** *** [itertools.groupby(iterable, key=...)]: the consecutive runs of equal
    key, each with its key. *)
Section Groupby.
Context {A : Type} (key : A -> string).

Fixpoint groupby (l : list A) : list (string * list A) :=
  match l with
  | [] => []
  | x :: l' =>
      match groupby l' with
      | (k, g) :: gs =>
          if (key x =? k)%string then (k, x :: g) :: gs
          else (key x, [x]) :: (k, g) :: gs
      | [] => [(key x, [x])]
      end
  end.
End Groupby.

(** *** [os.path.basename] and [os.path.splitext] (POSIX). *)
Fixpoint basename_from (acc : string) (p : string) : string :=
  match p with
  | EmptyString => acc
  | String c r =>
      if (code c =? 47)%nat then basename_from "" r
      else basename_from (acc ++ String c "") r
  end.

Definition basename (p : string) : string := basename_from "" p.

Definition is_dot (c : ascii) : bool := (code c =? 46)%nat.

(** [before_last_dot l]: the characters before the last dot of [l]. *)
Fixpoint before_last_dot (l : list ascii) : option (list ascii) :=
  match l with
  | [] => None
  | c :: r =>
      match before_last_dot r with
      | Some root => Some (c :: root)
      | None => if is_dot c then Some [] else None
      end
  end.

(** [splitext(p)[0]] for a path without directory part: the extension
    starts at the last dot, unless only dots precede it. *)
Definition splitext_root (p : string) : string :=
  match before_last_dot (list_ascii_of_string p) with
  | Some root =>
      if forallb is_dot root then p else string_of_list_ascii root
  | None => p
  end.

End Py.

(** ** The syntax trees of Python's [ast] module, as far as the tool looks
    at them. *)
Module Ast.

(** A node below the module node.  [lineno] is the line number the parser
    gives the node, counted from 1: the line on which it begins (before
    Python 3.8, for a string that takes several lines, the line on which it
    ends).  A function has at least one body statement
    ([body0]); [Other] is any node of another class (a compound statement,
    an exception handler, an expression, ...) with its child nodes in field
    order.  Expression children of the nodes named here are left out, except
    the value of an expression statement: no expression contains a
    statement, so they bear no declaration and no import. *)
Inductive node : Type :=
| FunctionDef (name : string) (lineno : Z) (body0 : node) (body : list node)
| AsyncFunctionDef (name : string) (lineno : Z) (body0 : node) (body : list node)
| ClassDef (name : string) (lineno : Z) (body : list node)
| ImportFrom (lineno : Z) (module : option string) (names : list string)
| Import (lineno : Z) (names : list string)
| Expr (lineno : Z) (value : node)
| Str (lineno : Z) (s : string)
| Other (lineno : Z) (children : list node).

(** What [ast.parse] returns and [ast.walk] yields: the module node, which
    has neither [lineno] nor [name], or a node below it. *)
Inductive AST : Type :=
| Module (body : list node)
| Inner (n : node).

(** The node classes that key the tool's tables. *)
Inductive ast_type : Type :=
| ast_FunctionDef
| ast_AsyncFunctionDef
| ast_ClassDef
| ast_Module
| ast_ImportFrom
| ast_Import.

(** [type(n)], [None] for any other class. *)
Definition type_of (n : AST) : option ast_type :=
  match n with
  | Module _ => Some ast_Module
  | Inner (FunctionDef _ _ _ _) => Some ast_FunctionDef
  | Inner (AsyncFunctionDef _ _ _ _) => Some ast_AsyncFunctionDef
  | Inner (ClassDef _ _ _) => Some ast_ClassDef
  | Inner (ImportFrom _ _ _) => Some ast_ImportFrom
  | Inner (Import _ _) => Some ast_Import
  | Inner _ => None
  end.

(** [n.lineno] of a node below the module. *)
Definition lineno (n : node) : Z :=
  match n with
  | FunctionDef _ l _ _ | AsyncFunctionDef _ l _ _ | ClassDef _ l _
  | ImportFrom l _ _ | Import l _ | Expr l _ | Str l _ | Other l _ => l
  end.

(** [getattr(n, 'lineno', 0)]. *)
Definition getattr_lineno (n : AST) : Z :=
  match n with
  | Module _ => 0
  | Inner m => lineno m
  end.

(** [getattr(n, 'name', None)]. *)
Definition getattr_name (n : AST) : option string :=
  match n with
  | Inner (FunctionDef name _ _ _) | Inner (AsyncFunctionDef name _ _ _)
  | Inner (ClassDef name _ _) => Some name
  | _ => None
  end.

(** [n.body] of a module, class or function node. *)
Definition body (n : AST) : list node :=
  match n with
  | Module b | Inner (ClassDef _ _ b) => b
  | Inner (FunctionDef _ _ b0 b) | Inner (AsyncFunctionDef _ _ b0 b) => b0 :: b
  | Inner _ => []
  end.

(** [ast.iter_child_nodes]. *)
Definition iter_child_nodes (n : node) : list node :=
  match n with
  | FunctionDef _ _ b0 b | AsyncFunctionDef _ _ b0 b => b0 :: b
  | ClassDef _ _ b => b
  | Expr _ v => [v]
  | Other _ c => c
  | ImportFrom _ _ _ | Import _ _ | Str _ _ => []
  end.

(** The nodes of the trees rooted at [roots]. *)
Inductive within (roots : list node) : node -> Prop :=
| within_root (n : node) : In n roots -> within roots n
| within_child (p n : node) :
    within roots p -> In n (iter_child_nodes p) -> within roots n.

(** Number of nodes of a subtree. *)
Fixpoint size (n : node) : nat :=
  match n with
  | FunctionDef _ _ b0 b | AsyncFunctionDef _ _ b0 b =>
      S (size b0 + list_sum (map size b))
  | ClassDef _ _ b | Other _ b => S (list_sum (map size b))
  | Expr _ v => S (size v)
  | ImportFrom _ _ _ | Import _ _ | Str _ _ => 1
  end.

Definition sizes (todo : list node) : nat := list_sum (map size todo).

(** The loop of [ast.walk]: [todo] is the queue; the node at its head is
    taken, its children are put at the end, and the node is yielded.
    [fuel] bounds the number of turns. *)
Fixpoint walk_queue (fuel : nat) (todo : list node) : list node :=
  match fuel with
  | O => []
  | S fuel' =>
      match todo with
      | [] => []
      | n :: rest => n :: walk_queue fuel' (rest ++ iter_child_nodes n)%list
      end
  end.

(** [ast.walk(tree)]: each turn of the loop takes one node off the nodes
    that are left, so as many turns as there are nodes are enough. *)
Definition walk (tree : AST) : list AST :=
  match tree with
  | Module b => Module b :: map Inner (walk_queue (sizes b) b)
  | Inner n => map Inner (walk_queue (size n) [n])
  end.

(** [ast.get_docstring(n, clean=True)] for a module, class or function
    node. *)
Definition get_docstring (n : AST) : option string :=
  match body n with
  | Expr _ (Str _ text) :: _ => Some (Py.cleandoc text)
  | _ => None
  end.

End Ast.

(** ** What the two copies of the tool share: the tables, the tuples the
    extractor yields, the effects of a generator, the chunks of the
    renderer. *)
Module Tool.
Import Ast.

(** The markdown headings, as dictionaries from node classes. *)
Definition _FUNCTION_TYPES (t : ast_type) : option string :=
  match t with
  | ast_FunctionDef => Some (Py.nl ++ "### Function")
  | ast_AsyncFunctionDef => Some (Py.nl ++ "### Async Function")
  | _ => None
  end.

Definition _DECLARE_TYPES (t : ast_type) : option string :=
  match _FUNCTION_TYPES t with
  | Some h => Some h
  | None =>
      match t with
      | ast_ClassDef => Some (Py.nl ++ "## Class")
      | ast_Module => Some "# Module"
      | _ => None
      end
  end.

(** [_NODE_TYPES[t]]: every class of [ast_type] is a key. *)
Definition _NODE_TYPES (t : ast_type) : string :=
  match _DECLARE_TYPES t with
  | Some h => h
  | None => Py.nl ++ "Imports"
  end.

(** [isinstance(n, tuple(d))]. *)
Definition isinstance (n : AST) (d : ast_type -> option string) : bool :=
  match type_of n with
  | Some t => match d t with Some _ => true | None => false end
  | None => false
  end.

(** The tuple [(node, name, lineno, docstring)].  Of the node the renderer
    takes the class only, which is what [node] keeps. *)
Record record : Type := mkrecord {
  node : ast_type;
  name : option string;
  lineno : Z;
  docstring : string
}.

(** What a generator does, in order: it writes to the import file or it
    yields a value. *)
Inductive event (Y : Type) : Type :=
| Write (data : string)
| Yield (y : Y).
Arguments Write {Y} data.
Arguments Yield {Y} y.

Inductive exn : Type := SyntaxError.

(** A generator run until it is exhausted or raises. *)
Record run (Y : Type) : Type := mkrun {
  events : list (event Y);
  raised : option exn
}.
Arguments mkrun {Y} events raised.
Arguments events {Y} r.
Arguments raised {Y} r.

Definition yields {Y : Type} (t : list (event Y)) : list Y :=
  flat_map (fun e => match e with Yield y => [y] | Write _ => [] end) t.

Definition writes {Y : Type} (t : list (event Y)) : list string :=
  flat_map (fun e => match e with Write d => [d] | Yield _ => [] end) t.

(** The import file, when one is given; an open file is truthy. *)
Inductive IO : Type := TextIO (path : string).

(** The first argument of [yield_docstrings]: a string, or an object with
    [read], which may have a [name]. *)
Inductive source_arg : Type :=
| Text (s : string)
| File (filename : option string) (contents : string).

(** The [yield] statements of the renderer, each with the values it
    formats. *)
Inductive chunk : Type :=
| ModuleHeading (type_ name : string)
| ImportsHeading
| ImportBullet (name : string)
| ImportEntry (type_ name : string)
| DeclHeading (type_ name : string) (lineno : Z)
| Docstring (docstring : string).

(** [lineno or '?'], formatted. *)
Definition lineno_or (lineno : Z) : string :=
  if lineno =? 0 then "?" else Py.str_of_int lineno.

(** The string a [yield] statement produces. *)
Definition text (c : chunk) : string :=
  match c with
  | ModuleHeading type_ name => type_ ++ " '" ++ name ++ "'" ++ Py.nl
  | ImportsHeading => "## Imports" ++ Py.nl
  | ImportBullet name => "* " ++ name
  | ImportEntry type_ name => type_ ++ " '" ++ name ++ "'"
  | DeclHeading type_ name lineno =>
      type_ ++ " '" ++ name ++ "'" ++ Py.nl
      ++ "line " ++ lineno_or lineno ++ Py.nl ++ Py.nl
  | Docstring docstring => Py.str_or (docstring ++ Py.nl) Py.nl
  end.

(** The module name and the source text [yield_docstrings] works on. *)
Definition resolve (source : source_arg) (module : string) : string * string :=
  match source with
  | File filename contents =>
      let filename := match filename with Some f => f | None => module end in
      (Py.splitext_root (Py.basename filename), contents)
  | Text s => (module, s)
  end.

(** The function header of a function node: its own line and its first
    body statement. *)
Definition function_parts (n : AST) : option (Z * Ast.node) :=
  match n with
  | Inner (FunctionDef _ l b0 _) | Inner (AsyncFunctionDef _ l b0 _) => Some (l, b0)
  | _ => None
  end.

(** The fenced block with the function's declaration, before its
    docstring. *)
Definition fenced (_function docstring : string) : string :=
  "```python" ++ Py.nl ++ _function ++ Py.nl ++ "```" ++ Py.nl ++ docstring.

End Tool.

(** ** [src/docs2md/docs2md.py] *)
Module Docs2md.
Import Ast Tool.

Definition get_imports (n : AST) (file_to_save : option IO) : list (event record) :=
  let emit (t : ast_type) (imports : string) : list (event record) :=
    ((match file_to_save with
      | Some _ => [Write ("├" ++ imports ++ Py.nl)]
      | None => []
      end) ++ [Yield (mkrecord t (Some imports) 0 "")])%list in
  match n with
  | Inner (ImportFrom _ module _) => emit ast_ImportFrom (Py.opt_or module "?")
  | Inner (Import _ names) => emit ast_Import (Py.join "," names)
  | _ => []
  end.

(** The source lines of a function's declaration; [node_lineno] is the
    function's line and [lineno] the line of its first body statement. *)
Definition function_declaration (source_lines : list string)
    (node_lineno lineno : Z) : list string :=
  if node_lineno =? lineno
  then Py.slice source_lines (lineno - 1) lineno
  else Py.slice source_lines (node_lineno - 1) (lineno - 1).

(** The body of [if isinstance(n, tuple(_DECLARE_TYPES))]: the tuple a
    declaration yields. *)
Definition declaration (source_lines : list string) (n : AST) : list record :=
  match type_of n with
  | Some t =>
      if isinstance n _DECLARE_TYPES then
        let docstring := Py.opt_or (get_docstring n) "**UNDOCUMENTED**" in
        let lineno := getattr_lineno n in
        match function_parts n with
        | Some (node_lineno, body0) =>
            let lineno := Ast.lineno body0 in
            let _function :=
              Py.dedent (Py.join Py.nl
                (function_declaration source_lines node_lineno lineno)) in
            [mkrecord t (getattr_name n) lineno (fenced _function docstring)]
        | None => [mkrecord t (getattr_name n) lineno docstring]
        end
      else []
  | None => []
  end.

(** One turn of the loop over [ast.walk(tree)]. *)
Definition visit (source_lines : list string) (import_file : option IO)
    (n : AST) : list (event record) :=
  (map Yield (declaration source_lines n) ++ get_imports n import_file)%list.

(** One record of a group: the chunks it yields and the flag after it. *)
Definition render_record (module type_ : string) (first_import : bool)
    (tpl : record) : list chunk * bool :=
  let name := Py.opt_or (name tpl) module in
  let '(heading, first_import) :=
    if (type_ =? _NODE_TYPES ast_Module)%string then
      ([ModuleHeading type_ name], first_import)
    else if ((type_ =? _NODE_TYPES ast_ImportFrom)
             || (type_ =? _NODE_TYPES ast_Import))%string then
      (((if first_import then [ImportsHeading] else []) ++ [ImportBullet name])%list,
       false)
    else ([DeclHeading type_ name (lineno tpl)], first_import) in
  ((heading ++ [Docstring (docstring tpl)])%list, first_import).

(** The inner loop, over one group. *)
Fixpoint render_group (module type_ : string) (first_import : bool)
    (group : list record) : list chunk * bool :=
  match group with
  | [] => ([], first_import)
  | tpl :: rest =>
      let '(cs, first_import) := render_record module type_ first_import tpl in
      let '(cs', first_import) := render_group module type_ first_import rest in
      ((cs ++ cs')%list, first_import)
  end.

(** The outer loop, over the groups. *)
Fixpoint render_groups (module : string) (first_import : bool)
    (grouped : list (string * list record)) : list chunk :=
  match grouped with
  | [] => []
  | (type_, group) :: rest =>
      let '(cs, first_import) := render_group module type_ first_import group in
      (cs ++ render_groups module first_import rest)%list
  end.

Section WithParser.
(** [ast.parse]: [None] when it raises [SyntaxError]. *)
Variable ast_parse : string -> option AST.

Definition parse_docstrings (source : string) (import_file : option IO)
  : run record :=
  match ast_parse source with
  | None => mkrun [] (Some SyntaxError)
  | Some tree =>
      let source_lines := Py.splitlines source in
      mkrun (flat_map (visit source_lines import_file) (walk tree)) None
  end.

(** [sorted(parse_docstrings(...), key=lambda x: x[2])]. *)
Definition iter_docstrings (actual_source : string) (import_file : option IO)
  : list record :=
  Py.sorted lineno (yields (events (parse_docstrings actual_source import_file))).

Definition grouped (actual_source : string) (import_file : option IO)
  : list (string * list record) :=
  Py.groupby (fun tpl => _NODE_TYPES (node tpl))
    (iter_docstrings actual_source import_file).

(** The chunks the two loops yield. *)
Definition chunks (source : source_arg) (module : string)
    (import_file : option IO) : list chunk :=
  let '(module, actual_source) := resolve source module in
  render_groups module true (grouped actual_source import_file).

(** [sorted] runs [parse_docstrings] to its end before the first chunk is
    yielded: the writes of the extractor come first, and nothing is yielded
    when it raises. *)
Definition yield_docstrings (source : source_arg) (module : string)
    (import_file : option IO) : run string :=
  let actual_source := snd (resolve source module) in
  let extraction := parse_docstrings actual_source import_file in
  match raised extraction with
  | Some e => mkrun (map Write (writes (events extraction))) (Some e)
  | None =>
      mkrun (map Write (writes (events extraction))
             ++ map (fun c => Yield (text c)) (chunks source module import_file))%list
            None
  end.
End WithParser.

End Docs2md.

(** ** [src/doc2md.py] *)
Module Doc2md.
Import Ast Tool.

Definition get_imports (n : AST) (file_to_save : option IO) : list (event record) :=
  let emit (t : ast_type) (imports : string) : list (event record) :=
    ((match file_to_save with
      | Some _ => [Write ("â”œ" ++ imports ++ Py.nl)]
      | None => []
      end) ++ [Yield (mkrecord t (Some imports) 0 "")])%list in
  match n with
  | Inner (ImportFrom _ module _) => emit ast_ImportFrom (Py.opt_or module "?")
  | Inner (Import _ names) => emit ast_Import (Py.join "," names)
  | _ => []
  end.

(** The line number of a declaration: its own, or the one computed from
    its first body statement when that is a string expression. *)
Definition anchor (n : AST) : Z :=
  match body n with
  | Expr expr_lineno (Str _ s) :: _ =>
      expr_lineno - Z.of_nat (List.length (Py.splitlines s))
  | _ => getattr_lineno n
  end.

(** The source lines of a function's declaration; [node_lineno] is the
    function's line and [lineno] the line number computed for it. *)
Definition function_declaration (source_lines : list string)
    (node_lineno lineno : Z) : list string :=
  if node_lineno =? lineno
  then Py.slice source_lines (lineno - 1) lineno
  else Py.slice source_lines (node_lineno - 1) lineno.

(** The body of [if isinstance(n, tuple(_DECLARE_TYPES))]. *)
Definition declaration (source_lines : list string) (n : AST) : list record :=
  match type_of n with
  | Some t =>
      if isinstance n _DECLARE_TYPES then
        let docstring := Py.opt_or (get_docstring n) "**UNDOCUMENTED**" in
        let lineno := anchor n in
        match function_parts n with
        | Some (node_lineno, _) =>
            let _function :=
              Py.dedent (Py.join Py.nl
                (function_declaration source_lines node_lineno lineno)) in
            [mkrecord t (getattr_name n) lineno (fenced _function docstring)]
        | None => [mkrecord t (getattr_name n) lineno docstring]
        end
      else []
  | None => []
  end.

Definition visit (source_lines : list string) (import_file : option IO)
    (n : AST) : list (event record) :=
  (map Yield (declaration source_lines n) ++ get_imports n import_file)%list.

(** One record of a group. *)
Definition render_record (module type_ : string) (tpl : record) : list chunk :=
  let name := Py.opt_or (name tpl) module in
  let heading :=
    if (type_ =? _NODE_TYPES ast_Module)%string then
      ModuleHeading type_ name
    else if ((type_ =? _NODE_TYPES ast_ImportFrom)
             || (type_ =? _NODE_TYPES ast_Import))%string then
      ImportEntry type_ name
    else DeclHeading type_ name (lineno tpl) in
  [heading; Docstring (docstring tpl)].

(** The two loops, over the groups and over the records of each. *)
Definition render_groups (module : string)
    (grouped : list (string * list record)) : list chunk :=
  flat_map (fun '(type_, group) => flat_map (render_record module type_) group)
    grouped.

Section WithParser.
Variable ast_parse : string -> option AST.

Definition parse_docstrings (source : string) (import_file : option IO)
  : run record :=
  match ast_parse source with
  | None => mkrun [] (Some SyntaxError)
  | Some tree =>
      let source_lines := Py.splitlines source in
      mkrun (flat_map (visit source_lines import_file) (walk tree)) None
  end.

Definition iter_docstrings (actual_source : string) (import_file : option IO)
  : list record :=
  Py.sorted lineno (yields (events (parse_docstrings actual_source import_file))).

Definition grouped (actual_source : string) (import_file : option IO)
  : list (string * list record) :=
  Py.groupby (fun tpl => _NODE_TYPES (node tpl))
    (iter_docstrings actual_source import_file).

Definition chunks (source : source_arg) (module : string)
    (import_file : option IO) : list chunk :=
  let '(module, actual_source) := resolve source module in
  render_groups module (grouped actual_source import_file).

Definition yield_docstrings (source : source_arg) (module : string)
    (import_file : option IO) : run string :=
  let actual_source := snd (resolve source module) in
  let extraction := parse_docstrings actual_source import_file in
  match raised extraction with
  | Some e => mkrun (map Write (writes (events extraction))) (Some e)
  | None =>
      mkrun (map Write (writes (events extraction))
             ++ map (fun c => Yield (text c)) (chunks source module import_file))%list
            None
  end.
End WithParser.

End Doc2md.

(** ** The example sources of the doctests and of the specification, as
    [ast.parse] returns them. *)
Module Examples.
Import Ast Tool.

Definition nl := Py.nl.

(** Three double quotes. *)
Definition q3 : string :=
  let dq := Ascii.ascii_of_nat 34 in String dq (String dq (String dq EmptyString)).

(** A module docstring and an import. *)
Definition scenarioA_source : string :=
  q3 ++ "Module doc" ++ q3 ++ nl ++ "import os" ++ nl.

Definition scenarioA_tree : AST :=
  Module [Expr 1 (Str 1 "Module doc"); Import 2 ["os"]].

(** A function with a docstring of one line. *)
Definition scenarioB_source : string :=
  "def foo():" ++ nl ++ "    " ++ q3 ++ "doc" ++ q3 ++ nl ++ "    pass" ++ nl.

Definition scenarioB_tree : AST :=
  Module [FunctionDef "foo" 1 (Expr 2 (Str 2 "doc")) [Other 3 []]].

Definition scenarioB_function : AST :=
  Inner (FunctionDef "foo" 1 (Expr 2 (Str 2 "doc")) [Other 3 []]).

(** An import, then a function, then a class. *)
Definition mixed_source : string :=
  "import os" ++ nl ++ "def f():" ++ nl ++ "    pass" ++ nl
  ++ "class A:" ++ nl ++ "    pass" ++ nl.

Definition mixed_tree : AST :=
  Module [Import 1 ["os"]; FunctionDef "f" 2 (Other 3 []) [];
          ClassDef "A" 4 [Other 5 []]].

(** A class whose docstring takes two lines. *)
Definition class_doc_source : string :=
  "class A:" ++ nl ++ "    " ++ q3 ++ "a" ++ nl ++ "    b" ++ q3 ++ nl.

Definition class_doc_tree : AST :=
  Module [ClassDef "A" 1 [Expr 2 (Str 2 ("a" ++ nl ++ "    b"))]].

(** A function whose docstring takes two lines. *)
Definition func_doc_source : string :=
  "def f():" ++ nl ++ "    " ++ q3 ++ "a" ++ nl ++ "    b" ++ q3 ++ nl.

Definition func_doc_tree : AST :=
  Module [FunctionDef "f" 1 (Expr 2 (Str 2 ("a" ++ nl ++ "    b"))) []].

(** The example of the doctest of [parse_docstrings]. *)
Definition doctest_lines : list string :=
  [ q3 ++ " Module documentation " ++ q3;
    "from whatever import *";
    "from aze.aze.aze import lel";
    "import os";
    "import sys";
    "def here_is_cool(";
    "    a: str";
    ") -> t[";
    "    azeaze,";
    "    azeaze";
    "]:";
    "    " ++ q3 ++ " typical docstring";
    "        - Args:";
    "            - a (str): example_input";
    "        - Returns:";
    "            - t[azeaze,azeaze]: Example of complicated return type";
    "    " ++ q3;
    EmptyString;
    "    cache = {}";
    "    " ++ q3 ++ " doesn't care about docstrings not in class/function";
    "    " ++ q3;
    EmptyString;
    "    def sub_yo(aze: str):";
    "        " ++ q3 ++ " sub function" ++ q3;
    EmptyString;
    "    class Blarg:";
    "        " ++ q3 ++ " sub class " ++ q3;
    EmptyString;
    "        def aze(self, a):";
    "            " ++ q3 ++ " sub-function of subclass " ++ q3;
    "            ...";
    EmptyString;
    EmptyString;
    "def undocumented_function(aze):";
    "    pass" ].

Definition doctest_source : string := Py.join nl doctest_lines.

Definition typical_docstring : string :=
  " typical docstring" ++ nl
  ++ "        - Args:" ++ nl
  ++ "            - a (str): example_input" ++ nl
  ++ "        - Returns:" ++ nl
  ++ "            - t[azeaze,azeaze]: Example of complicated return type" ++ nl
  ++ "    ".

(** Its tree; [multi] is the line number the parser gives to a string that
    takes several lines, as a function of its first and last line: the first
    since Python 3.8, the last before. *)
Definition doctest_tree (multi : Z -> Z -> Z) : AST :=
  Module
    [ Expr 1 (Str 1 " Module documentation ");
      ImportFrom 2 (Some "whatever") ["*"];
      ImportFrom 3 (Some "aze.aze.aze") ["lel"];
      Import 4 ["os"];
      Import 5 ["sys"];
      FunctionDef "here_is_cool" 6
        (Expr (multi 12 17) (Str (multi 12 17) typical_docstring))
        [ Other 19 [Other 19 []; Other 19 []];
          Expr (multi 20 21)
            (Str (multi 20 21)
               (" doesn't care about docstrings not in class/function" ++ nl ++ "    "));
          FunctionDef "sub_yo" 23 (Expr 24 (Str 24 " sub function")) [];
          ClassDef "Blarg" 26
            [ Expr 27 (Str 27 " sub class ");
              FunctionDef "aze" 29
                (Expr 30 (Str 30 " sub-function of subclass "))
                [Expr 31 (Other 31 [])] ] ];
      FunctionDef "undocumented_function" 34 (Other 35 []) [] ].

(** The first three components of the tuples, which the doctest shows. *)
Definition shown (r : record) : ast_type * option string * Z :=
  (node r, name r, lineno r).

(** The class and the function with a docstring of two lines, on lines 2
    and 3, as nodes: the string on its first line, and on its last. *)
Definition two_lines : string := "a" ++ nl ++ "    b".

Definition class_doc_node (string_lineno : Z) : AST :=
  Inner (ClassDef "A" 1 [Expr string_lineno (Str string_lineno two_lines)]).

Definition func_doc_node (string_lineno : Z) : AST :=
  Inner (FunctionDef "f" 1 (Expr string_lineno (Str string_lineno two_lines)) []).

(** A function record whose line number is zero. *)
Definition line_zero_record : record :=
  mkrecord ast_FunctionDef (Some "f") 0 "doc".

(** A parser that knows these sources and rejects every other text. *)
Definition ast_parse (source : string) : option AST :=
  if (source =? scenarioA_source)%string then Some scenarioA_tree
  else if (source =? scenarioB_source)%string then Some scenarioB_tree
  else if (source =? mixed_source)%string then Some mixed_tree
  else if (source =? class_doc_source)%string then Some class_doc_tree
  else if (source =? func_doc_source)%string then Some func_doc_tree
  else None.

End Examples.

(** ** The properties in the words of the specification, and the two loops
    of the renderer read as one pass over the sorted records. *)
Module Spec.
Import Ast Tool.

(** The section order of the specification: Module, Class,
    Function/AsyncFunction, Import. *)
Definition category_group (t : ast_type) : nat :=
  match t with
  | ast_Module => 0
  | ast_ClassDef => 1
  | ast_FunctionDef | ast_AsyncFunctionDef => 2
  | ast_ImportFrom | ast_Import => 3
  end.

Definition is_import (t : ast_type) : bool :=
  match t with
  | ast_ImportFrom | ast_Import => true
  | _ => false
  end.

(** The classes whose heading shows a line number. *)
Definition has_line (t : ast_type) : bool :=
  match t with
  | ast_ClassDef | ast_FunctionDef | ast_AsyncFunctionDef => true
  | _ => false
  end.

(** The records in the order in which the two loops go through them. *)
Definition rendered (grouped : list (string * list record)) : list record :=
  List.concat (map snd grouped).

(** No record of a later section comes before a record of an earlier one. *)
Definition section_order (rs : list record) : Prop :=
  forall i j ri rj,
    (i < j)%nat -> nth_error rs i = Some ri -> nth_error rs j = Some rj ->
    (category_group (node ri) <= category_group (node rj))%nat.

(** Within a section the records other than imports do not go down in line
    number. *)
Definition lines_nondecreasing_in_sections (rs : list record) : Prop :=
  forall i j ri rj,
    (i < j)%nat -> nth_error rs i = Some ri -> nth_error rs j = Some rj ->
    category_group (node ri) = category_group (node rj) ->
    is_import (node ri) = false ->
    lineno ri <= lineno rj.

(** The lines with their numbers, counted from [i]. *)
Fixpoint numbered (i : Z) (lines : list string) : list (Z * string) :=
  match lines with
  | [] => []
  | l :: rest => (i, l) :: numbered (i + 1) rest
  end.

(** The source lines numbered [first] to [last], both included; the first
    line of the source is line 1. *)
Definition lines_through (source_lines : list string) (first last : Z)
  : list string :=
  map snd
    (filter (fun p => (first <=? fst p) && (fst p <=? last))
       (numbered 1 source_lines)).

(** In a run of events, every write comes before every yield. *)
Definition writes_before_yields {Y : Type} (t : list (event Y)) : Prop :=
  forall i j d y,
    nth_error t i = Some (Write d) -> nth_error t j = Some (Yield y) ->
    (i < j)%nat.

(** The loops of [Docs2md.render_groups] as one loop over the records, each
    rendered under the heading of its own class. *)
Fixpoint render_all (module : string) (first_import : bool)
    (rs : list record) : list chunk :=
  match rs with
  | [] => []
  | tpl :: rest =>
      let '(cs, first_import) :=
        Docs2md.render_record module (_NODE_TYPES (node tpl)) first_import tpl in
      (cs ++ render_all module first_import rest)%list
  end.


Definition is_import_bullet (c : chunk) : bool :=
  match c with
  | ImportBullet _ => true
  | _ => false
  end.


(** The import statements among the nodes [ast.walk] yields, each with the
    name the extractor gives it. *)
Definition import_names (ns : list AST) : list string :=
  flat_map
    (fun n =>
       match n with
       | Inner (ImportFrom _ module _) => [Py.opt_or module "?"]
       | Inner (Import _ names) => [Py.join "," names]
       | _ => []
       end) ns.

(** The records of the import statements among the nodes [ast.walk]
    yields: line 0, no text, the name as above. *)
Definition import_records (ns : list AST) : list record :=
  flat_map
    (fun n =>
       match n with
       | Inner (ImportFrom _ module _) =>
           [mkrecord ast_ImportFrom (Some (Py.opt_or module "?")) 0 EmptyString]
       | Inner (Import _ names) =>
           [mkrecord ast_Import (Some (Py.join "," names)) 0 EmptyString]
       | _ => []
       end) ns.

(** The line number of a declaration that opens with a string expression
    of several lines is the line on which that expression begins, which is
    its [lineno] where the parser puts a string on its first line. *)
Definition anchor_at_comment_start
    (declaration : list string -> AST -> list record) : Prop :=
  forall source_lines n l sl s rest r,
    isinstance n _DECLARE_TYPES = true ->
    body n = Expr l (Str sl s) :: rest ->
    (2 <= List.length (Py.splitlines s))%nat ->
    In r (declaration source_lines n) ->
    lineno r = l.

(** The text of a function record opens with the fenced source lines from
    the line of the function to the line number of the record, both
    included. *)
Definition header_through_anchor
    (declaration : list string -> AST -> list record) : Prop :=
  forall source_lines n node_lineno body0 r,
    function_parts n = Some (node_lineno, body0) ->
    In r (declaration source_lines n) ->
    docstring r
    = fenced
        (Py.dedent (Py.join Py.nl (lines_through source_lines node_lineno (lineno r))))
        (Py.opt_or (get_docstring n) "**UNDOCUMENTED**").

(** The heading of a record other than an import shows the placeholder for
    a line number of zero. *)
Definition placeholder_for_line_zero (module : string) (tpl : record) : Prop :=
  is_import (node tpl) = false -> lineno tpl = 0 ->
  forall first_import,
    hd_error
      (map text
         (fst (Docs2md.render_record module (_NODE_TYPES (node tpl))
                 first_import tpl)))
    = Some (_NODE_TYPES (node tpl) ++ " '" ++ Py.opt_or (name tpl) module ++ "'"
            ++ Py.nl ++ "line ?" ++ Py.nl ++ Py.nl).

End Spec.

(** ** The layout of the output of [docs2md.py], for the properties
    beyond the claims. *)
Module Layout.
Import Ast Tool.

(** The classes of the nodes that yield a tuple, in the order of the
    nodes. *)
Definition classes (ns : list AST) : list ast_type :=
  flat_map (fun n => match type_of n with Some t => [t] | None => [] end) ns.

(** Every node of the trees has a line number from 1 on, as the parser
    gives them. *)
Definition lines_from_one (roots : list Ast.node) : Prop :=
  forall n, within roots n -> 1 <= Ast.lineno n.

(** A node and its children have line numbers from 1 on. *)
Definition numbered_from_one (n : Ast.node) : Prop :=
  1 <= Ast.lineno n /\ Forall (fun c => 1 <= Ast.lineno c) (iter_child_nodes n).

(** The two chunks of a record that is no import. *)
Definition declared (module : string) (tpl : record) : list chunk :=
  let name := Py.opt_or (name tpl) module in
  [ match node tpl with
    | ast_Module => ModuleHeading (_NODE_TYPES ast_Module) name
    | t => DeclHeading (_NODE_TYPES t) name (lineno tpl)
    end;
    Docstring (docstring tpl) ].

(** The two chunks of an import record, without the heading of the
    section. *)
Definition bullet (module : string) (tpl : record) : list chunk :=
  [ImportBullet (Py.opt_or (name tpl) module); Docstring (docstring tpl)].

(** The section of the imports: nothing when there is none. *)
Definition imports_section (module : string) (imports : list record)
  : list chunk :=
  match imports with
  | [] => []
  | _ :: _ => ImportsHeading :: flat_map (bullet module) imports
  end.

(** The record of the module node. *)
Definition module_record (body : list Ast.node) : record :=
  mkrecord ast_Module None 0
    (Py.opt_or (get_docstring (Module body)) "**UNDOCUMENTED**").

(** The records of the declarations below the module node, in the order
    of the walk. *)
Definition declarations (source_lines : list string) (body : list Ast.node)
  : list record :=
  flat_map (Docs2md.declaration source_lines) (List.tl (walk (Module body))).

(** The body of the module of [Examples.mixed_source]. *)
Definition mixed_body : list Ast.node :=
  [Import 1 ["os"]; FunctionDef "f" 2 (Other 3 []) [];
   ClassDef "A" 4 [Other 5 []]].

(** A function on line 1 that imports [a] on line 2, then an import of [b]
    on line 3. *)
Definition nested_import_tree : AST :=
  Module [FunctionDef "f" 1 (Import 2 ["a"]) []; Import 3 ["b"]].

(** A function on line 1 whose docstring begins on line 2 and takes three
    lines, in a source of five lines, with the string on its first line. *)
Definition long_doc_lines : list string :=
  ["def f():"; "    " ++ Examples.q3 ++ "a"; "    b"; "    c" ++ Examples.q3;
   "    return 1"].

Definition long_doc_function : AST :=
  Inner (FunctionDef "f" 1
           (Expr 2 (Str 2 ("a" ++ Py.nl ++ "    b" ++ Py.nl ++ "    c")))
           [Other 5 []]).

Definition nested_import_source : string :=
  "def f():" ++ Py.nl ++ "    import a" ++ Py.nl ++ "import b" ++ Py.nl.

(** A docstring that is a no-break space, U+00A0, and a space. *)
Definition blank_docstring : string :=
  String (Ascii.ascii_of_nat 194) (String (Ascii.ascii_of_nat 160) " ").

(** What the two copies of a record have in common: the class, the name,
    and the text when the record is no function record. *)
Definition common (tpl : record) : ast_type * option string * option string :=
  (node tpl, name tpl,
   match _FUNCTION_TYPES (node tpl) with
   | Some _ => None
   | None => Some (docstring tpl)
   end).

End Layout.

(** ** [src/docs2md/__main__.py]: the conversion of one file *)
Module Main.
Import Ast Tool.

(** The operations of [pathlib.Path] the command line uses, over paths of
    some type. *)
Record pathlib (path : Type) : Type := mkpathlib {
  Path : string -> path;
  str : path -> string;
  path_exists : path -> bool;
  is_absolute : path -> bool;
  cwd : path;
  truediv : path -> path -> path;
  stem : path -> string
}.
Arguments Path {path} p _.
Arguments str {path} p _.
Arguments path_exists {path} p _.
Arguments is_absolute {path} p _.
Arguments cwd {path} p.
Arguments truediv {path} p _ _.
Arguments stem {path} p _.

(** What the conversion does to the outside, in order. *)
Inductive io : Type :=
| Mkdir (dir : string)
| Open (file mode : string)
| Read (file : string)
| WriteTo (file data : string)
| Print (line : string)
| Close (file : string).

(** [len(s)]: the number of code points, the bytes that do not continue a
    UTF-8 sequence. *)
Fixpoint len (s : string) : nat :=
  match s with
  | EmptyString => O
  | String c r => if Py.continuation c then len r else S (len r)
  end.

(** [s * n]. *)
Fixpoint times (s : string) (n : nat) : string :=
  match n with
  | O => EmptyString
  | S k => s ++ times s k
  end.

(** What is written to [file], in order. *)
Definition written_to (file : string) (trace : list io) : list string :=
  flat_map
    (fun e =>
       match e with
       | WriteTo f data => if (f =? file)%string then [data] else []
       | _ => []
       end) trace.

(** What is printed, in order. *)
Definition printed (trace : list io) : list string :=
  flat_map (fun e => match e with Print line => [line] | _ => [] end) trace.

Section WithPaths.
Context {path : Type} (lib : pathlib path).

Definition _make_path_sane (p : string) : path :=
  let proper_path := Path lib p in
  if path_exists lib proper_path then proper_path
  else if negb (is_absolute lib proper_path)
       then truediv lib (cwd lib) proper_path
       else proper_path.

(** The import file [_mini_main] opens: none when [save_import] is [None]
    or empty. *)
Definition import_path (save_import : option string) : option string :=
  match save_import with
  | Some s => if Py.truthy s then Some (str lib (_make_path_sane s)) else None
  | None => None
  end.

Definition import_first_line (file_to_analyse : path) : string :=
  Py.nl ++ "┌" ++ str lib file_to_analyse ++ " IMPORTS" ++ Py.nl.

Definition import_last_line (file_to_analyse : path) : string :=
  "└" ++ times "─" (len (import_first_line file_to_analyse)) ++ Py.nl ++ Py.nl.

(** The markdown file of a source file. *)
Definition md_path (file_to_analyse docs_dir : path) : string :=
  str lib docs_dir ++ "/" ++ stem lib file_to_analyse ++ ".md".

(** One event of the renderer, as the loop of [_mini_main] passes it on:
    a write goes to the import file, a chunk is printed or written to the
    markdown file. *)
Definition pass_on (import_fl : option string) (md : option string)
    (e : event string) : list io :=
  match e with
  | Write data =>
      match import_fl with
      | Some f => [WriteTo f data]
      | None => []
      end
  | Yield line =>
      match md with
      | Some f => [WriteTo f line]
      | None => [Print line]
      end
  end.

Section WithParser.
Variable ast_parse : string -> option AST.

(** [_mini_main]; [contents] is what reading the source file returns.  The
    files are closed when the [with] block is left, the last opened first,
    also when the renderer raises. *)
Definition _mini_main (contents : string) (file_to_analyse : path)
    (just_print : bool) (save_import : option string) (docs_dir : path)
  : list io * option exn :=
  let source := str lib file_to_analyse in
  let import_fl := import_path save_import in
  let opened_import :=
    match import_fl with
    | Some f => [Open f "a+"; WriteTo f (import_first_line file_to_analyse)]
    | None => []
    end in
  let md :=
    if just_print then None else Some (md_path file_to_analyse docs_dir) in
  let opened_md :=
    match md with
    | Some f => [Open f "w"]
    | None => []
    end in
  let rendering :=
    Docs2md.yield_docstrings ast_parse (File (Some source) contents) "<string>"
      (match import_fl with Some f => Some (TextIO f) | None => None end) in
  let closing :=
    ((match md with Some f => [Close f] | None => [] end)
     ++ (match import_fl with Some f => [Close f] | None => [] end)
     ++ [Close source])%list in
  let before :=
    ([Mkdir (str lib docs_dir); Open source "r"] ++ opened_import ++ opened_md
     ++ [Read source] ++ flat_map (pass_on import_fl md) (events rendering))%list in
  match raised rendering with
  | Some e => ((before ++ closing)%list, Some e)
  | None =>
      ((before
        ++ (match import_fl with
            | Some f => [WriteTo f (import_last_line file_to_analyse)]
            | None => []
            end)
        ++ closing)%list, None)
  end.
End WithParser.
End WithPaths.

(** Paths as plain strings, for the examples: a path exists when it is in
    [present], is absolute when it begins with a slash, and the stem is the
    name without its directories and its last suffix. *)
Definition string_paths (present : list string) (cwd : string) : pathlib string :=
  mkpathlib string
    (fun p => p)
    (fun p => p)
    (fun p => existsb (String.eqb p) present)
    (fun p => String.prefix "/" p)
    cwd
    (fun a b => a ++ "/" ++ b)
    (fun p => Py.splitext_root (Py.basename p)).

End Main.

(** * Properties of the library model *)
Module PyFacts.

Lemma append_assoc (a b c : string) : ((a ++ b) ++ c = a ++ (b ++ c))%string.
Proof. induction a as [|x a IH]; simpl; [|rewrite IH]; reflexivity. Qed.

Section SortedFacts.
Context {A : Type} (key : A -> Z).

Lemma insert_perm (x : A) (l : list A) :
  Permutation (Py.insert key x l) (x :: l).
Proof.
  induction l as [|y l IH]; simpl.
  - apply Permutation_refl.
  - destruct (key x <=? key y).
    + apply Permutation_refl.
    + eapply perm_trans; [apply perm_skip, IH | apply perm_swap].
Qed.

Lemma sorted_perm (l : list A) : Permutation (Py.sorted key l) l.
Proof.
  induction l as [|x l IH]; simpl.
  - constructor.
  - eapply perm_trans; [apply insert_perm | apply perm_skip, IH].
Qed.

Lemma insert_ordered (x : A) (l : list A) :
  StronglySorted (fun a b => key a <= key b) l ->
  StronglySorted (fun a b => key a <= key b) (Py.insert key x l).
Proof.
  induction 1 as [|y l Hs IH Hy]; simpl.
  - constructor; constructor.
  - destruct (key x <=? key y) eqn:E.
    + apply Z.leb_le in E. constructor.
      * constructor; assumption.
      * constructor; [assumption|].
        eapply Forall_impl; [|exact Hy]. simpl. intros; lia.
    + apply Z.leb_gt in E. constructor; [assumption|].
      eapply Permutation_Forall.
      * apply Permutation_sym, insert_perm.
      * constructor; [lia | assumption].
Qed.

Lemma sorted_ordered (l : list A) :
  StronglySorted (fun a b => key a <= key b) (Py.sorted key l).
Proof.
  induction l as [|x l IH]; simpl.
  - constructor.
  - apply insert_ordered, IH.
Qed.

(** The sort is stable: the elements of one key keep their order. *)
Lemma insert_stable (k : Z) (x : A) (l : list A) :
  filter (fun a => key a =? k) (Py.insert key x l)
  = filter (fun a => key a =? k) (x :: l).
Proof.
  induction l as [|y l IH]; simpl.
  - reflexivity.
  - destruct (key x <=? key y) eqn:E; [reflexivity|].
    apply Z.leb_gt in E. simpl. simpl in IH. rewrite IH.
    destruct (key y =? k) eqn:Ey; [|reflexivity].
    apply Z.eqb_eq in Ey.
    destruct (key x =? k) eqn:Ex; [|reflexivity].
    apply Z.eqb_eq in Ex. lia.
Qed.

Lemma sorted_stable (k : Z) (l : list A) :
  filter (fun a => key a =? k) (Py.sorted key l)
  = filter (fun a => key a =? k) l.
Proof.
  induction l as [|x l IH]; simpl.
  - reflexivity.
  - rewrite insert_stable. simpl. rewrite IH. reflexivity.
Qed.
End SortedFacts.

Section GroupbyFacts.
Context {A : Type} (key : A -> string).

(** The groups, one after the other, are the list that was grouped. *)
Lemma groupby_concat (l : list A) :
  List.concat (map snd (Py.groupby key l)) = l.
Proof.
  induction l as [|x l IH]; simpl; [reflexivity|].
  destruct (Py.groupby key l) as [|[k g] gs]; simpl in *.
  - subst l. reflexivity.
  - destruct (key x =? k)%string; simpl; rewrite IH; reflexivity.
Qed.

(** Every member of a group has the key of the group. *)
Lemma groupby_keys (l : list A) :
  Forall (fun kg => Forall (fun x => key x = fst kg) (snd kg)) (Py.groupby key l).
Proof.
  induction l as [|x l IH]; simpl; [constructor|].
  destruct (Py.groupby key l) as [|[k g] gs].
  - constructor; [|constructor]. simpl. constructor; [reflexivity|constructor].
  - destruct (key x =? k)%string eqn:E.
    + apply String.eqb_eq in E. apply Forall_cons_iff in IH as [Hk Hgs].
      constructor; [|exact Hgs]. simpl in *. constructor; assumption.
    + constructor; [|exact IH]. simpl. constructor; [reflexivity|constructor].
Qed.
End GroupbyFacts.

(** A slice with bounds that are not negative holds the lines numbered from
    [a + 1] to [b]. *)
Lemma numbered_from (l : list string) (i a b : Z) :
  a <= i ->
  map snd (filter (fun p => (a <=? fst p) && (fst p <=? b)) (Spec.numbered i l))
  = firstn (Z.to_nat (b - i + 1)) l.
Proof.
  revert i. induction l as [|x l IH]; intros i Hi.
  - rewrite firstn_nil. reflexivity.
  - cbn [Spec.numbered filter fst].
    assert (Ha : (a <=? i) = true) by (apply Z.leb_le; lia).
    rewrite Ha. cbn [andb].
    destruct (i <=? b) eqn:E.
    + apply Z.leb_le in E. cbn [map snd]. rewrite IH by lia.
      replace (Z.to_nat (b - i + 1)) with (S (Z.to_nat (b - (i + 1) + 1))) by lia.
      reflexivity.
    + apply Z.leb_gt in E. rewrite IH by lia.
      replace (Z.to_nat (b - (i + 1) + 1)) with O by lia.
      replace (Z.to_nat (b - i + 1)) with O by lia.
      reflexivity.
Qed.

Lemma numbered_skip (l : list string) (i a b : Z) :
  i <= a ->
  filter (fun p => (a <=? fst p) && (fst p <=? b)) (Spec.numbered i l)
  = filter (fun p => (a <=? fst p) && (fst p <=? b))
      (Spec.numbered a (skipn (Z.to_nat (a - i)) l)).
Proof.
  revert i. induction l as [|x l IH]; intros i Hi.
  - rewrite skipn_nil. reflexivity.
  - destruct (Z.eq_dec i a) as [->|Hne].
    + replace (Z.to_nat (a - a)) with O by lia. reflexivity.
    + replace (Z.to_nat (a - i)) with (S (Z.to_nat (a - (i + 1)))) by lia.
      cbn [Spec.numbered filter fst skipn].
      assert (Ha : (a <=? i) = false) by (apply Z.leb_gt; lia).
      rewrite Ha. cbn [andb]. apply IH. lia.
Qed.

Lemma lines_through_firstn_skipn (l : list string) (a b : Z) :
  1 <= a ->
  Spec.lines_through l a b
  = firstn (Z.to_nat (b - a + 1)) (skipn (Z.to_nat (a - 1)) l).
Proof.
  intros Ha. unfold Spec.lines_through.
  rewrite (numbered_skip l 1 a b) by lia.
  apply numbered_from. lia.
Qed.

Lemma slice_lines_through (l : list string) (a b : Z) :
  1 <= a -> 0 <= b ->
  Py.slice l (a - 1) b = Spec.lines_through l a b.
Proof.
  intros Ha Hb. rewrite lines_through_firstn_skipn by assumption.
  unfold Py.slice, Py.slice_index.
  assert (E1 : (a - 1 <? 0) = false) by (apply Z.ltb_ge; lia).
  assert (E2 : (b <? 0) = false) by (apply Z.ltb_ge; lia).
  rewrite E1, E2.
  destruct (Z_le_gt_dec (Z.of_nat (List.length l)) (a - 1)) as [Hbig|Hsmall].
  - rewrite !skipn_all2 by lia. rewrite !firstn_nil. reflexivity.
  - replace (Z.min (a - 1) (Z.of_nat (List.length l))) with (a - 1) by lia.
    destruct (Z_le_gt_dec b (Z.of_nat (List.length l))) as [Hb1|Hb2].
    + replace (Z.min b (Z.of_nat (List.length l))) with b by lia.
      f_equal. lia.
    + replace (Z.min b (Z.of_nat (List.length l)))
        with (Z.of_nat (List.length l)) by lia.
      rewrite !firstn_all2; [reflexivity | |]; rewrite length_skipn; lia.
Qed.

End PyFacts.

(** * Properties of [ast.walk] *)
Module WalkFacts.
Import Ast.

Lemma size_children (n : node) : size n = S (sizes (iter_child_nodes n)).
Proof. destruct n; simpl; unfold sizes; simpl; lia. Qed.

Lemma sizes_app (a b : list node) : sizes (a ++ b) = (sizes a + sizes b)%nat.
Proof. unfold sizes. rewrite map_app, list_sum_app. reflexivity. Qed.

Lemma sizes_cons (n : node) (rest : list node) :
  sizes (n :: rest) = (size n + sizes rest)%nat.
Proof. reflexivity. Qed.

Lemma sizes_next (n : node) (rest : list node) :
  S (sizes (rest ++ iter_child_nodes n)) = sizes (n :: rest).
Proof. rewrite sizes_app, sizes_cons, (size_children n). lia. Qed.

(** Any fuel that covers the nodes still to be visited gives the same
    walk. *)
Lemma walk_queue_fuel (f1 f2 : nat) (todo : list node) :
  (sizes todo <= f1)%nat -> (sizes todo <= f2)%nat ->
  walk_queue f1 todo = walk_queue f2 todo.
Proof.
  revert f2 todo. induction f1 as [|f1 IH]; intros f2 todo H1 H2.
  - destruct todo as [|n rest].
    + destruct f2; reflexivity.
    + rewrite sizes_cons, (size_children n) in H1. lia.
  - destruct todo as [|n rest]; [destruct f2; reflexivity|].
    destruct f2 as [|f2].
    + rewrite sizes_cons, (size_children n) in H2. lia.
    + simpl. f_equal. pose proof (sizes_next n rest). apply IH; lia.
Qed.

(** The loop as an equation: the head of the queue is yielded, its children
    join the queue. *)
Lemma walk_queue_step (n : node) (rest : list node) :
  walk_queue (sizes (n :: rest)) (n :: rest)
  = n :: walk_queue (sizes (rest ++ iter_child_nodes n)) (rest ++ iter_child_nodes n).
Proof. rewrite <- (sizes_next n rest). reflexivity. Qed.

(** The fuel never runs out early: the walk yields as many nodes as the
    trees in the queue hold. *)
Lemma walk_queue_length (todo : list node) :
  List.length (walk_queue (sizes todo) todo) = sizes todo.
Proof.
  remember (sizes todo) as k eqn:Hk. revert todo Hk.
  induction k as [|k IH]; intros todo Hk; [reflexivity|].
  destruct todo as [|n rest]; [discriminate|].
  simpl. f_equal. apply IH.
  pose proof (sizes_next n rest). lia.
Qed.

(** The walk holds the nodes of the queue and, with a node, its
    children: every node of the trees is visited. *)
Lemma walk_queue_closed (fuel : nat) (todo : list node) :
  (sizes todo <= fuel)%nat ->
  incl todo (walk_queue fuel todo)
  /\ (forall n, In n (walk_queue fuel todo) ->
      incl (iter_child_nodes n) (walk_queue fuel todo)).
Proof.
  revert todo. induction fuel as [|fuel IH]; intros todo H.
  - destruct todo as [|n rest].
    + split; [intros x []|intros x []].
    + rewrite sizes_cons, (size_children n) in H. lia.
  - destruct todo as [|n rest].
    + split; [intros x []|intros x []].
    + simpl. pose proof (sizes_next n rest) as Hn.
      destruct (IH (rest ++ iter_child_nodes n)%list) as [Hroots Hclosed]; [lia|].
      split.
      * intros x [->|Hx]; [left; reflexivity|].
        right. apply Hroots, in_or_app. left; exact Hx.
      * intros x [->|Hx] c Hc; right.
        -- apply Hroots, in_or_app. right; exact Hc.
        -- exact (Hclosed x Hx c Hc).
Qed.

(** Every node of the trees is visited, and only these. *)
Lemma walk_queue_visits (roots : list node) (n : node) :
  within roots n -> In n (walk_queue (sizes roots) roots).
Proof.
  destruct (walk_queue_closed (sizes roots) roots (le_n _)) as [Hroots Hclosed].
  induction 1 as [n Hn|p n Hp IH Hn].
  - apply Hroots, Hn.
  - exact (Hclosed p IH n Hn).
Qed.

Lemma within_next (n0 : node) (rest : list node) (n : node) :
  within (rest ++ iter_child_nodes n0) n -> within (n0 :: rest) n.
Proof.
  induction 1 as [n Hn|p n Hp IH Hn].
  - apply in_app_or in Hn. destruct Hn as [Hn|Hn].
    + apply within_root. right. exact Hn.
    + apply within_child with (p := n0); [apply within_root; left; reflexivity|exact Hn].
  - apply within_child with (p := p); assumption.
Qed.

Lemma walk_queue_within (fuel : nat) (todo : list node) (n : node) :
  In n (walk_queue fuel todo) -> within todo n.
Proof.
  revert todo. induction fuel as [|fuel IH]; intros todo H; [destruct H|].
  destruct todo as [|n0 rest]; [destruct H|].
  destruct H as [->|H].
  - apply within_root. left. reflexivity.
  - apply within_next, IH, H.
Qed.

Lemma walk_module (b : list node) :
  walk (Module b) = Module b :: map Inner (walk_queue (sizes b) b).
Proof. reflexivity. Qed.

End WalkFacts.

(** * Properties of the generators *)
Module ToolFacts.
Import Ast Tool.

Lemma yields_app {Y : Type} (a b : list (event Y)) :
  yields (a ++ b) = (yields a ++ yields b)%list.
Proof. unfold yields. apply flat_map_app. Qed.

Lemma writes_app {Y : Type} (a b : list (event Y)) :
  writes (a ++ b) = (writes a ++ writes b)%list.
Proof. unfold writes. apply flat_map_app. Qed.

Lemma yields_map_Yield {Y : Type} (l : list Y) : yields (map Yield l) = l.
Proof. induction l as [|x l IH]; simpl; [|rewrite IH]; reflexivity. Qed.

Lemma writes_map_Yield {Y : Type} (l : list Y) : writes (map Yield l) = [].
Proof. induction l as [|x l IH]; simpl; [|rewrite IH]; reflexivity. Qed.

Lemma yields_map_Write {Y : Type} (l : list string) :
  yields (map (@Write Y) l) = [].
Proof. induction l as [|x l IH]; simpl; [|rewrite IH]; reflexivity. Qed.

Lemma writes_map_Write {Y : Type} (l : list string) :
  writes (map (@Write Y) l) = l.
Proof. induction l as [|x l IH]; simpl; [|rewrite IH]; reflexivity. Qed.

Lemma yields_flat_map {X Y : Type} (f : X -> list (event Y)) (l : list X) :
  yields (flat_map f l) = flat_map (fun x => yields (f x)) l.
Proof.
  induction l as [|x l IH]; simpl; [reflexivity|].
  rewrite yields_app, IH. reflexivity.
Qed.

Lemma writes_flat_map {X Y : Type} (f : X -> list (event Y)) (l : list X) :
  writes (flat_map f l) = flat_map (fun x => writes (f x)) l.
Proof.
  induction l as [|x l IH]; simpl; [reflexivity|].
  rewrite writes_app, IH. reflexivity.
Qed.

(** A run made of writes and then of yields has every write before every
    yield. *)
Lemma writes_then_yields {Y : Type} (ws : list string) (ys : list Y) :
  Spec.writes_before_yields (map Write ws ++ map Yield ys).
Proof.
  intros i j d y Hi Hj.
  destruct (Nat.lt_ge_cases i (List.length (map (@Write Y) ws))) as [Hlt|Hge].
  - destruct (Nat.lt_ge_cases j (List.length (map (@Write Y) ws))) as [Hjlt|Hjge].
    + rewrite nth_error_app1 in Hj by exact Hjlt.
      apply nth_error_In, in_map_iff in Hj. destruct Hj as [w [Hw _]]. discriminate.
    + lia.
  - rewrite nth_error_app2 in Hi by exact Hge.
    apply nth_error_In, in_map_iff in Hi. destruct Hi as [w [Hw _]]. discriminate.
Qed.

(** The groups of [groupby] rendered one after the other are the records
    rendered one after the other. *)
Lemma render_group_nil (module type_ : string) (b : bool) :
  Docs2md.render_group module type_ b [] = ([], b).
Proof. reflexivity. Qed.

Lemma render_groups_cons (module k : string) (b : bool) (x : record)
    (g : list record) (gs : list (string * list record)) :
  Docs2md.render_groups module b ((k, x :: g) :: gs)
  = (fst (Docs2md.render_record module k b x)
     ++ Docs2md.render_groups module (snd (Docs2md.render_record module k b x))
          ((k, g) :: gs))%list.
Proof.
  simpl. destruct (Docs2md.render_record module k b x) as [cs b1]. simpl.
  destruct (Docs2md.render_group module k b1 g) as [cs' b2].
  rewrite app_assoc. reflexivity.
Qed.

Lemma render_groups_groupby (module : string) (b : bool) (l : list record) :
  Docs2md.render_groups module b
    (Py.groupby (fun tpl => _NODE_TYPES (node tpl)) l)
  = Spec.render_all module b l.
Proof.
  revert b. induction l as [|x l IH]; intros b; [reflexivity|].
  cbn [Py.groupby Spec.render_all].
  destruct (Py.groupby (fun tpl => _NODE_TYPES (node tpl)) l) as [|[k g] gs] eqn:G.
  - rewrite render_groups_cons.
    destruct (Docs2md.render_record module (_NODE_TYPES (node x)) b x) as [cs b1].
    cbn [fst snd]. f_equal. rewrite <- IH. reflexivity.
  - destruct (_NODE_TYPES (node x) =? k)%string eqn:E.
    + apply String.eqb_eq in E. subst k. rewrite render_groups_cons.
      destruct (Docs2md.render_record module (_NODE_TYPES (node x)) b x) as [cs b1].
      cbn [fst snd]. f_equal. apply IH.
    + rewrite render_groups_cons.
      destruct (Docs2md.render_record module (_NODE_TYPES (node x)) b x) as [cs b1].
      cbn [fst snd]. f_equal. rewrite <- IH. reflexivity.
Qed.

End ToolFacts.

(** * Properties of the renderer of [docs2md.py] *)
Module RenderFacts.
Import Ast Tool.

Lemma render_record_import (module : string) (b : bool) (r : record) :
  Spec.is_import (node r) = true ->
  Docs2md.render_record module (_NODE_TYPES (node r)) b r
  = (((if b then [ImportsHeading] else [])
      ++ [ImportBullet (Py.opt_or (name r) module); Docstring (docstring r)])%list,
     false).
Proof.
  destruct r as [t nm ln doc]. simpl. intros H.
  destruct t; try discriminate; destruct b; reflexivity.
Qed.


Lemma render_record_line (module : string) (b : bool) (r : record) :
  Spec.has_line (node r) = true ->
  Docs2md.render_record module (_NODE_TYPES (node r)) b r
  = ([DeclHeading (_NODE_TYPES (node r)) (Py.opt_or (name r) module) (lineno r);
      Docstring (docstring r)], b).
Proof.
  destruct r as [t nm ln doc]. simpl. intros H.
  destruct t; try discriminate; reflexivity.
Qed.





(** The first import of a list that holds one. *)
Lemma first_import (l : list record) :
  (exists r, In r l /\ Spec.is_import (node r) = true) ->
  exists pre r post,
    l = (pre ++ r :: post)%list
    /\ Forall (fun r => Spec.is_import (node r) = false) pre
    /\ Spec.is_import (node r) = true.
Proof.
  induction l as [|x l IH]; intros [r [Hin Hr]]; [destruct Hin|].
  destruct (Spec.is_import (node x)) eqn:I.
  - exists [], x, l. repeat split; [constructor | exact I].
  - destruct Hin as [->|Hin]; [congruence|].
    destruct IH as [pre [r' [post [E [Hpre Hr']]]]]; [exists r; split; assumption|].
    exists (x :: pre), r', post. subst l. repeat split.
    + constructor; assumption.
    + exact Hr'.
Qed.

Lemma chunks_render_all (ast_parse : string -> option AST) (source : source_arg)
    (module : string) (import_file : option IO) :
  Docs2md.chunks ast_parse source module import_file
  = Spec.render_all (fst (resolve source module)) true
      (Docs2md.iter_docstrings ast_parse (snd (resolve source module)) import_file).
Proof.
  unfold Docs2md.chunks, Docs2md.grouped.
  destruct (resolve source module) as [m src]. simpl.
  apply ToolFacts.render_groups_groupby.
Qed.

End RenderFacts.

(** * Properties of the extractors *)
Module ExtractFacts.
Import Ast Tool.

Lemma declare_type (n : AST) :
  isinstance n _DECLARE_TYPES = true ->
  exists t, type_of n = Some t /\ Spec.is_import t = false.
Proof.
  unfold isinstance. destruct (type_of n) as [t|]; [|discriminate].
  intros H. exists t. split; [reflexivity|].
  destruct t; try reflexivity; discriminate.
Qed.

Lemma function_parts_declare (n : AST) (l : Z) (b0 : Ast.node) :
  function_parts n = Some (l, b0) -> isinstance n _DECLARE_TYPES = true.
Proof.
  destruct n as [b|[]]; simpl; intros H; try discriminate; reflexivity.
Qed.

(** The records of declarations are no import records. *)
Lemma declaration_not_import (source_lines : list string) (n : AST) :
  Forall (fun r => Spec.is_import (node r) = false)
    (Docs2md.declaration source_lines n).
Proof.
  unfold Docs2md.declaration.
  destruct (isinstance n _DECLARE_TYPES) eqn:D.
  - destruct (declare_type n D) as [t [E Ht]]. rewrite E.
    destruct (function_parts n) as [[l b0]|]; repeat constructor; exact Ht.
  - destruct (type_of n); constructor.
Qed.

Lemma get_imports_yields (n : AST) (f : option IO) :
  yields (Docs2md.get_imports n f) = Spec.import_records [n].
Proof.
  destruct n as [b|[]]; try reflexivity; destruct f; reflexivity.
Qed.

Lemma get_imports_writes (n : AST) (f : IO) :
  writes (Docs2md.get_imports n (Some f))
  = map (fun nm => "├" ++ nm ++ Py.nl) (Spec.import_names [n]).
Proof. destruct n as [b|[]]; reflexivity. Qed.

Lemma get_imports_no_file (n : AST) :
  writes (Docs2md.get_imports n None) = [].
Proof. destruct n as [b|[]]; reflexivity. Qed.

Lemma import_records_are_imports (ns : list AST) :
  Forall (fun r => Spec.is_import (node r) = true) (Spec.import_records ns).
Proof.
  induction ns as [|n ns IH]; [constructor|].
  unfold Spec.import_records. simpl. apply Forall_app. split; [|exact IH].
  destruct n as [b|[]]; repeat constructor.
Qed.

Lemma filter_all {A : Type} (p : A -> bool) (l : list A) :
  Forall (fun x => p x = true) l -> filter p l = l.
Proof. induction 1 as [|x l Hx Hl IH]; simpl; [|rewrite Hx, IH]; reflexivity. Qed.

Lemma filter_none {A : Type} (p : A -> bool) (l : list A) :
  Forall (fun x => p x = false) l -> filter p l = [].
Proof. induction 1 as [|x l Hx Hl IH]; simpl; [|rewrite Hx, IH]; reflexivity. Qed.

Lemma import_records_cons (n : AST) (ns : list AST) :
  Spec.import_records (n :: ns)
  = (Spec.import_records [n] ++ Spec.import_records ns)%list.
Proof. unfold Spec.import_records. simpl. rewrite app_nil_r. reflexivity. Qed.

Lemma import_names_cons (n : AST) (ns : list AST) :
  Spec.import_names (n :: ns)
  = (Spec.import_names [n] ++ Spec.import_names ns)%list.
Proof. unfold Spec.import_names. simpl. rewrite app_nil_r. reflexivity. Qed.

(** Of the records the loop yields over some nodes, the import records are
    those of the import statements among the nodes, in order. *)
Lemma visit_import_records (source_lines : list string) (f : option IO)
    (ns : list AST) :
  filter (fun r => Spec.is_import (node r))
    (yields (flat_map (Docs2md.visit source_lines f) ns))
  = Spec.import_records ns.
Proof.
  induction ns as [|n ns IH]; [reflexivity|].
  cbn [flat_map]. rewrite ToolFacts.yields_app, filter_app, IH.
  unfold Docs2md.visit. rewrite ToolFacts.yields_app, filter_app.
  rewrite ToolFacts.yields_map_Yield, get_imports_yields.
  rewrite (filter_none _ _ (declaration_not_import source_lines n)).
  rewrite (filter_all _ _ (import_records_are_imports [n])).
  rewrite (import_records_cons n ns). reflexivity.
Qed.

Lemma visit_writes (source_lines : list string) (f : IO) (ns : list AST) :
  writes (flat_map (Docs2md.visit source_lines (Some f)) ns)
  = map (fun nm => "├" ++ nm ++ Py.nl) (Spec.import_names ns).
Proof.
  induction ns as [|n ns IH]; [reflexivity|].
  cbn [flat_map]. rewrite ToolFacts.writes_app, IH.
  unfold Docs2md.visit. rewrite ToolFacts.writes_app, ToolFacts.writes_map_Yield.
  rewrite get_imports_writes, (import_names_cons n ns), map_app.
  reflexivity.
Qed.

End ExtractFacts.

(** * The order of the rendered records *)
Module OrderFacts.
Import Ast Tool.

Lemma StronglySorted_nth {A : Type} (R : A -> A -> Prop) (l : list A) :
  StronglySorted R l ->
  forall i j a b,
    (i < j)%nat -> nth_error l i = Some a -> nth_error l j = Some b -> R a b.
Proof.
  induction 1 as [|x l Hs IH Hx]; intros i j a b Hij Hi Hj.
  - destruct i; discriminate.
  - destruct j as [|j]; [lia|]. simpl in Hj. destruct i as [|i].
    + simpl in Hi. injection Hi as ->.
      rewrite Forall_forall in Hx. apply Hx. eapply nth_error_In; exact Hj.
    + simpl in Hi. apply (IH i j); [lia | assumption | assumption].
Qed.

(** What sorting by line number and grouping by heading do to any list
    of records. *)
Lemma rendered_sorted (l : list record) :
  let rs :=
    Spec.rendered (Py.groupby (fun tpl => _NODE_TYPES (node tpl)) (Py.sorted lineno l)) in
  rs = Py.sorted lineno l
  /\ Permutation rs l
  /\ StronglySorted (fun a b => lineno a <= lineno b) rs
  /\ (forall k, filter (fun r => lineno r =? k) rs = filter (fun r => lineno r =? k) l)
  /\ Spec.lines_nondecreasing_in_sections rs.
Proof.
  cbv zeta. unfold Spec.rendered. rewrite PyFacts.groupby_concat.
  split; [reflexivity|]. split; [apply PyFacts.sorted_perm|].
  split; [apply PyFacts.sorted_ordered|].
  split; [intros k; apply PyFacts.sorted_stable|].
  intros i j ri rj Hij Hi Hj _ _.
  exact (StronglySorted_nth _ _ (PyFacts.sorted_ordered lineno l) i j ri rj Hij Hi Hj).
Qed.

(** The two loops of [doc2md.py] over the groups are one pass over the
    records. *)
Lemma doc2md_groups_one_pass (module : string) (l : list record) :
  Doc2md.render_groups module (Py.groupby (fun tpl => _NODE_TYPES (node tpl)) l)
  = flat_map (fun tpl => Doc2md.render_record module (_NODE_TYPES (node tpl)) tpl) l.
Proof.
  rewrite <- (PyFacts.groupby_concat (fun tpl => _NODE_TYPES (node tpl)) l) at 2.
  pose proof (PyFacts.groupby_keys (fun tpl => _NODE_TYPES (node tpl)) l) as K.
  induction K as [|[k g] gs Hg Hgs IH]; [reflexivity|].
  unfold Doc2md.render_groups in *. cbn [flat_map map List.concat snd].
  rewrite flat_map_app, IH. f_equal.
  cbn [fst snd] in Hg. clear -Hg.
  induction Hg as [|r g Hr Hg IH]; [reflexivity|].
  cbn [flat_map]. rewrite IH, Hr. reflexivity.
Qed.

End OrderFacts.

Import Ast Tool.

(** ** The claims *)

(** C1, as the specification has it, fails: in the source of
    [Examples.mixed_source] (an import, a function, a class) the import
    record, of the last section, is rendered before the function record, and
    the function record before the class record. *)
Lemma C1_sections_not_in_order :
  ~ (Spec.section_order
       (Spec.rendered
          (Docs2md.grouped Examples.ast_parse Examples.mixed_source None))
     /\ Spec.lines_nondecreasing_in_sections
          (Spec.rendered
             (Docs2md.grouped Examples.ast_parse Examples.mixed_source None))).
Proof.
  intros [H _].
  specialize (H 1%nat 2%nat
                (mkrecord ast_Import (Some "os") 0 EmptyString)
                (mkrecord ast_FunctionDef (Some "f") 3
                   (fenced "def f():" "**UNDOCUMENTED**"))).
  simpl in H.
  assert (3 <= 2)%nat; [apply H; [lia | reflexivity | reflexivity] | lia].
Qed.

(** C1, amended: in both copies of the tool the records are rendered one
    by one in the order of a stable sort by line number alone, whatever
    their section.  The rendered records are the extracted records, they do
    not go down in line number, records of one line number keep the order of
    extraction, and so within a section the records other than imports do
    not go down in line number; the chunks are those of these records in
    this order, each under the heading of its own class.  Nothing orders the
    sections among themselves. *)
Theorem C1_rendered_in_line_order (ast_parse : string -> option AST)
    (source : source_arg) (module : string) (import_file : option IO) :
  (let extracted :=
     yields (events (Docs2md.parse_docstrings ast_parse
                       (snd (resolve source module)) import_file)) in
   let rs :=
     Spec.rendered
       (Docs2md.grouped ast_parse (snd (resolve source module)) import_file) in
   Permutation rs extracted
   /\ StronglySorted (fun a b => lineno a <= lineno b) rs
   /\ (forall k, filter (fun r => lineno r =? k) rs
                 = filter (fun r => lineno r =? k) extracted)
   /\ Spec.lines_nondecreasing_in_sections rs
   /\ Docs2md.chunks ast_parse source module import_file
      = Spec.render_all (fst (resolve source module)) true rs)
  /\ (let extracted :=
        yields (events (Doc2md.parse_docstrings ast_parse
                          (snd (resolve source module)) import_file)) in
      let rs :=
        Spec.rendered
          (Doc2md.grouped ast_parse (snd (resolve source module)) import_file) in
      Permutation rs extracted
      /\ StronglySorted (fun a b => lineno a <= lineno b) rs
      /\ (forall k, filter (fun r => lineno r =? k) rs
                    = filter (fun r => lineno r =? k) extracted)
      /\ Spec.lines_nondecreasing_in_sections rs
      /\ Doc2md.chunks ast_parse source module import_file
         = flat_map
             (fun tpl =>
                Doc2md.render_record (fst (resolve source module))
                  (_NODE_TYPES (node tpl)) tpl)
             rs).
Proof.
  split; cbv zeta.
  - destruct (OrderFacts.rendered_sorted
                (yields (events (Docs2md.parse_docstrings ast_parse
                                   (snd (resolve source module)) import_file))))
      as [E [P [S [T N]]]].
    unfold Docs2md.grouped, Docs2md.iter_docstrings.
    repeat split; try assumption.
    rewrite E. apply RenderFacts.chunks_render_all.
  - destruct (OrderFacts.rendered_sorted
                (yields (events (Doc2md.parse_docstrings ast_parse
                                   (snd (resolve source module)) import_file))))
      as [E [P [S [T N]]]].
    unfold Doc2md.grouped, Doc2md.iter_docstrings.
    repeat split; try assumption.
    rewrite E. unfold Doc2md.chunks, Doc2md.grouped, Doc2md.iter_docstrings.
    destruct (resolve source module) as [m src]. cbn [fst snd].
    apply OrderFacts.doc2md_groups_one_pass.
Qed.




(** What the two copies compute for a module, class or function node whose
    first body statement is a string expression: [doc2md.py] the [lineno]
    of that statement less the number of lines of the string,
    [docs2md.py] the [lineno] of that statement for a function, and the
    node's own line (0 for the module) for a class or the module. *)
Lemma line_number_of_documented (source_lines : list string) (n : AST)
    (l sl : Z) (s : string) (rest : list Ast.node) :
  isinstance n _DECLARE_TYPES = true ->
  body n = Expr l (Str sl s) :: rest ->
  (exists r,
      Doc2md.declaration source_lines n = [r]
      /\ lineno r = l - Z.of_nat (List.length (Py.splitlines s)))
  /\ (exists r,
         Docs2md.declaration source_lines n = [r]
         /\ lineno r = match function_parts n with
                       | Some _ => l
                       | None => getattr_lineno n
                       end).
Proof.
  intros D B.
  destruct (ExtractFacts.declare_type n D) as [t [T _]].
  split.
  - unfold Doc2md.declaration. rewrite T, D.
    assert (A : Doc2md.anchor n = l - Z.of_nat (List.length (Py.splitlines s)))
      by (unfold Doc2md.anchor; rewrite B; reflexivity).
    destruct (function_parts n) as [[nl b0]|]; eexists; (split; [reflexivity|exact A]).
  - unfold Docs2md.declaration. rewrite T, D.
    destruct (function_parts n) as [[nl b0]|] eqn:F.
    + eexists; split; [reflexivity|]. simpl.
      destruct n as [b|[]]; simpl in F; try discriminate;
        injection F as <- <-; simpl in B; injection B as -> _; reflexivity.
    + eexists; split; reflexivity.
Qed.

(** C3: the code misses what the claim, and the docstrings of
    [yield_docstrings] and [parse_docstrings], say of the line number.  For
    a docstring on lines 2 and 3 after a declaration on line 1, with the
    string on its first line as the parser puts it: [docs2md.py] gives a
    class line 1, its own, though it gives a function line 2; [doc2md.py]
    gives the function line 0.  With the string on its last line, as
    parsers before Python 3.8 put it, [doc2md.py] gives the function
    line 1. *)
Theorem C3_line_number_misses_comment_start :
  map Examples.shown
    (Docs2md.iter_docstrings Examples.ast_parse Examples.class_doc_source None)
  = [(ast_Module, None, 0); (ast_ClassDef, Some "A", 1)]
  /\ map Examples.shown
       (Docs2md.iter_docstrings Examples.ast_parse Examples.func_doc_source None)
     = [(ast_Module, None, 0); (ast_FunctionDef, Some "f", 2)]
  /\ map Examples.shown
       (Doc2md.iter_docstrings Examples.ast_parse Examples.func_doc_source None)
     = [(ast_Module, None, 0); (ast_FunctionDef, Some "f", 0)]
  /\ map lineno (Doc2md.declaration [] (Examples.func_doc_node 3)) = [1]
  /\ ~ Spec.anchor_at_comment_start Docs2md.declaration
  /\ ~ Spec.anchor_at_comment_start Doc2md.declaration.
Proof.
  split; [reflexivity|]. split; [reflexivity|]. split; [reflexivity|].
  split; [reflexivity|]. split.
  - intros H.
    specialize (H [] (Examples.class_doc_node 2) 2 2 Examples.two_lines []
                  (mkrecord ast_ClassDef (Some "A") 1 ("a" ++ Py.nl ++ "b"))).
    assert (E : 1 = 2); [|discriminate E].
    apply H; [reflexivity | reflexivity | simpl; lia | left; reflexivity].
  - intros H.
    specialize (H [] (Examples.func_doc_node 2) 2 2 Examples.two_lines []
                  (mkrecord ast_FunctionDef (Some "f") 0
                     (fenced EmptyString ("a" ++ Py.nl ++ "b")))).
    assert (E : 0 = 2); [|discriminate E].
    apply H; [reflexivity | reflexivity | simpl; lia | left; reflexivity].
Qed.

(** Where the parser puts a string on its last line, the subtraction of
    [doc2md.py] does reach the first line of the comment when the closing
    quotes stand alone on their line: the value then ends with a line break,
    which [splitlines] does not count.  A module docstring on lines 1 to 3
    gets line 1. *)
Example doc2md_closing_quotes_alone :
  map lineno
    (Doc2md.declaration []
       (Module [Expr 3 (Str 3 (Py.nl ++ "Module doc." ++ Py.nl))]))
  = [1].
Proof. reflexivity. Qed.

(** C4, as the specification has it, fails for [docs2md.py]: for the
    function of scenario B, on line 1 with its docstring on line 2, the
    record has line number 2 and its fenced block holds line 1 only. *)
Lemma C4_docs2md_header_stops_before_anchor :
  ~ Spec.header_through_anchor Docs2md.declaration
  /\ Docs2md.declaration (Py.splitlines Examples.scenarioB_source)
       Examples.scenarioB_function
     = [mkrecord ast_FunctionDef (Some "foo") 2
          ("```python" ++ Py.nl ++ "def foo():" ++ Py.nl ++ "```" ++ Py.nl ++ "doc")].
Proof.
  split; [|reflexivity].
  intros H.
  specialize (H (Py.splitlines Examples.scenarioB_source)
                Examples.scenarioB_function
                1 (Expr 2 (Str 2 "doc"))
                (mkrecord ast_FunctionDef (Some "foo") 2 (fenced "def foo():" "doc"))
                eq_refl (or_introl eq_refl)).
  vm_compute in H. discriminate H.
Qed.

(** The slices of the two copies, as lines of the source. *)
Lemma doc2md_function_declaration (source_lines : list string) (a b : Z) :
  1 <= a -> 0 <= b ->
  Doc2md.function_declaration source_lines a b
  = Spec.lines_through source_lines a b.
Proof.
  intros Ha Hb. unfold Doc2md.function_declaration.
  destruct (a =? b) eqn:E.
  - apply Z.eqb_eq in E. subst b. apply PyFacts.slice_lines_through; lia.
  - apply PyFacts.slice_lines_through; lia.
Qed.

Lemma docs2md_function_declaration (source_lines : list string) (a b : Z) :
  1 <= a -> 1 <= b ->
  Docs2md.function_declaration source_lines a b
  = Spec.lines_through source_lines a (if a =? b then b else b - 1).
Proof.
  intros Ha Hb. unfold Docs2md.function_declaration.
  destruct (a =? b) eqn:E.
  - apply Z.eqb_eq in E. subst b. apply PyFacts.slice_lines_through; lia.
  - apply PyFacts.slice_lines_through; lia.
Qed.

(** C4, amended: for a function node on line [node_lineno >= 1], with the
    documentation text or the sentinel after the fenced block in both
    copies: [doc2md.py] fences the source lines from [node_lineno] to the
    line number of the record, both included, when that line number is not
    negative; [docs2md.py], whose line number is the line of the first body
    statement, fences, when that line is 1 or more, the source lines from
    [node_lineno] to the line before that line number, or the one line
    [node_lineno] when the two are equal. *)
Theorem C4_function_header (source_lines : list string) (n : AST)
    (node_lineno : Z) (body0 : Ast.node) :
  function_parts n = Some (node_lineno, body0) ->
  1 <= node_lineno ->
  (0 <= Doc2md.anchor n ->
   exists r,
     Doc2md.declaration source_lines n = [r]
     /\ lineno r = Doc2md.anchor n
     /\ docstring r
        = "```python" ++ Py.nl
          ++ Py.dedent (Py.join Py.nl
               (Spec.lines_through source_lines node_lineno (lineno r)))
          ++ Py.nl ++ "```" ++ Py.nl
          ++ Py.opt_or (get_docstring n) "**UNDOCUMENTED**")
  /\ (1 <= Ast.lineno body0 ->
      exists r,
        Docs2md.declaration source_lines n = [r]
        /\ lineno r = Ast.lineno body0
        /\ docstring r
           = "```python" ++ Py.nl
             ++ Py.dedent (Py.join Py.nl
                  (Spec.lines_through source_lines node_lineno
                     (if node_lineno =? lineno r then lineno r else lineno r - 1)))
             ++ Py.nl ++ "```" ++ Py.nl
             ++ Py.opt_or (get_docstring n) "**UNDOCUMENTED**").
Proof.
  intros F H1.
  pose proof (ExtractFacts.function_parts_declare n _ _ F) as D.
  destruct (ExtractFacts.declare_type n D) as [t [T _]].
  split.
  - intros H3. unfold Doc2md.declaration. rewrite T, D, F.
    eexists. split; [reflexivity|]. split; [reflexivity|].
    cbn [docstring lineno].
    rewrite doc2md_function_declaration by lia. reflexivity.
  - intros H2. unfold Docs2md.declaration. rewrite T, D, F.
    eexists. split; [reflexivity|]. split; [reflexivity|].
    cbn [docstring lineno].
    rewrite docs2md_function_declaration by lia. reflexivity.
Qed.

(** C4 at the function of scenario B in both copies, and in [docs2md.py]
    at the function of [Layout.long_doc_function], whose line number in
    [doc2md.py] is negative. *)
Lemma C4_function_header_witness :
  function_parts Examples.scenarioB_function = Some (1, Expr 2 (Str 2 "doc"))
  /\ 1 <= 1
  /\ 0 <= Doc2md.anchor Examples.scenarioB_function
  /\ 1 <= Ast.lineno (Expr 2 (Str 2 "doc"))
  /\ Doc2md.declaration (Py.splitlines Examples.scenarioB_source)
       Examples.scenarioB_function
     = [mkrecord ast_FunctionDef (Some "foo") 1
          ("```python" ++ Py.nl ++ "def foo():" ++ Py.nl ++ "```" ++ Py.nl ++ "doc")]
  /\ Docs2md.declaration (Py.splitlines Examples.scenarioB_source)
       Examples.scenarioB_function
     = [mkrecord ast_FunctionDef (Some "foo") 2
          ("```python" ++ Py.nl ++ "def foo():" ++ Py.nl ++ "```" ++ Py.nl ++ "doc")]
  /\ Docs2md.declaration Layout.long_doc_lines Layout.long_doc_function
     = [mkrecord ast_FunctionDef (Some "f") 2
          ("```python" ++ Py.nl ++ "def f():" ++ Py.nl ++ "```" ++ Py.nl
           ++ "a" ++ Py.nl ++ "b" ++ Py.nl ++ "c")].
Proof.
  assert (A : 0 <= Doc2md.anchor Examples.scenarioB_function)
    by (vm_compute; discriminate).
  assert (B : 1 <= Ast.lineno (Expr 2 (Str 2 "doc"))) by (simpl; lia).
  assert (C : 1 <= 1) by lia.
  split; [reflexivity|]. split; [exact C|]. split; [exact A|]. split; [exact B|].
  destruct (C4_function_header (Py.splitlines Examples.scenarioB_source)
              Examples.scenarioB_function 1 (Expr 2 (Str 2 "doc")) eq_refl C)
    as [P Q].
  destruct (P A) as [r1 [E1 [L1 D1]]]. destruct (Q B) as [r2 [E2 [L2 D2]]].
  destruct (C4_function_header Layout.long_doc_lines Layout.long_doc_function 1
              (Expr 2 (Str 2 ("a" ++ Py.nl ++ "    b" ++ Py.nl ++ "    c")))
              eq_refl C) as [_ Q'].
  destruct (Q' ltac:(simpl; lia)) as [r3 [E3 [L3 D3]]].
  split; [|split].
  - rewrite E1. f_equal. destruct r1 as [t nm ln doc]. cbn [lineno docstring] in *.
    injection E1 as <- <- <- <-. reflexivity.
  - rewrite E2. f_equal. destruct r2 as [t nm ln doc]. cbn [lineno docstring] in *.
    injection E2 as <- <- <- <-. reflexivity.
  - rewrite E3. f_equal. destruct r3 as [t nm ln doc]. cbn [lineno docstring] in *.
    injection E3 as <- <- <- <-. reflexivity.
Defined.

(** C5: when [ast.parse] raises on the source text, the extractor raises
    before it yields a record or writes to the import file, and the
    renderer raises before it yields a chunk: the runs hold no event. *)
Theorem C5_malformed_source (ast_parse : string -> option AST)
    (source : source_arg) (module : string) (import_file : option IO) :
  ast_parse (snd (resolve source module)) = None ->
  Docs2md.parse_docstrings ast_parse (snd (resolve source module)) import_file
  = mkrun [] (Some SyntaxError)
  /\ Docs2md.yield_docstrings ast_parse source module import_file
     = mkrun [] (Some SyntaxError).
Proof.
  intros H. unfold Docs2md.yield_docstrings, Docs2md.parse_docstrings.
  rewrite H. split; reflexivity.
Qed.

(** C5 at a text with an open parenthesis, which the parser of the examples
    rejects, with an import file given. *)
Lemma C5_malformed_source_witness :
  Examples.ast_parse (snd (resolve (Text "(") "fallback")) = None
  /\ (Docs2md.parse_docstrings Examples.ast_parse
        (snd (resolve (Text "(") "fallback")) (Some (TextIO "imports.txt"))
      = mkrun [] (Some SyntaxError)
      /\ Docs2md.yield_docstrings Examples.ast_parse (Text "(") "fallback"
           (Some (TextIO "imports.txt"))
         = mkrun [] (Some SyntaxError)).
Proof.
  split; [reflexivity|].
  apply (C5_malformed_source Examples.ast_parse (Text "(") "fallback"
           (Some (TextIO "imports.txt"))).
  reflexivity.
Defined.

(** C6: an import statement yields one record, with line number 0 and
    empty text; its name is the module path of a [from] import, the
    sentinel when the path is missing, and the imported names joined by
    commas for a plain import.  The import records of the extraction are
    these records, one for each import statement [ast.walk] yields, in
    order; [ast.walk] yields every node of the tree, and as many nodes as
    the tree has. *)
Theorem C6_import_records (ast_parse : string -> option AST) (source : string)
    (import_file : option IO) (tree : AST) :
  ast_parse source = Some tree ->
  (forall l m names,
      m <> EmptyString ->
      yields (Docs2md.get_imports (Inner (ImportFrom l (Some m) names)) import_file)
      = [mkrecord ast_ImportFrom (Some m) 0 EmptyString])
  /\ (forall l names,
         yields (Docs2md.get_imports (Inner (ImportFrom l None names)) import_file)
         = [mkrecord ast_ImportFrom (Some "?") 0 EmptyString])
  /\ (forall l names,
         yields (Docs2md.get_imports (Inner (Import l names)) import_file)
         = [mkrecord ast_Import (Some (String.concat "," names)) 0 EmptyString])
  /\ filter (fun r => Spec.is_import (node r))
       (yields (events (Docs2md.parse_docstrings ast_parse source import_file)))
     = Spec.import_records (walk tree)
  /\ (forall b n, tree = Module b -> within b n -> In (Inner n) (walk tree))
  /\ (forall b, tree = Module b -> List.length (walk tree) = S (sizes b)).
Proof.
  intros H. split; [|split; [|split; [|split; [|split]]]].
  - intros l m names Hm. destruct import_file; simpl;
      (destruct m; [contradiction|reflexivity]).
  - intros l names. destruct import_file; reflexivity.
  - intros l names. destruct import_file; reflexivity.
  - unfold Docs2md.parse_docstrings. rewrite H. cbn [events].
    apply ExtractFacts.visit_import_records.
  - intros b n -> W. rewrite WalkFacts.walk_module. right.
    apply in_map, WalkFacts.walk_queue_visits, W.
  - intros b ->. rewrite WalkFacts.walk_module. cbn [List.length].
    rewrite length_map, WalkFacts.walk_queue_length. reflexivity.
Qed.

(** C6 at the source of scenario A. *)
Lemma C6_import_records_witness :
  Examples.ast_parse Examples.scenarioA_source = Some Examples.scenarioA_tree
  /\ filter (fun r => Spec.is_import (node r))
       (yields (events (Docs2md.parse_docstrings Examples.ast_parse
                          Examples.scenarioA_source None)))
     = [mkrecord ast_Import (Some "os") 0 EmptyString].
Proof.
  split; [reflexivity|].
  destruct (C6_import_records Examples.ast_parse Examples.scenarioA_source None
              Examples.scenarioA_tree eq_refl) as [_ [_ [_ [E _]]]].
  rewrite E. reflexivity.
Defined.

(** C7: a module, class or function node without docstring yields one
    record.  Its text is the sentinel for a module or a class.  For a
    function on line [node_lineno] whose first body statement is on line
    [lineno], both from 1 on, it is the fenced block of the declaration
    followed by the sentinel, where the block holds the source lines from
    [node_lineno] to the line before [lineno], without their common
    indentation, or the one line [node_lineno] when the body begins on the
    line of the function. *)
Theorem C7_undocumented (source_lines : list string) (n : AST) :
  isinstance n _DECLARE_TYPES = true ->
  get_docstring n = None ->
  exists r,
    Docs2md.declaration source_lines n = [r]
    /\ (function_parts n = None -> docstring r = "**UNDOCUMENTED**")
    /\ (forall node_lineno body0,
           function_parts n = Some (node_lineno, body0) ->
           1 <= node_lineno ->
           1 <= Ast.lineno body0 ->
           docstring r
           = "```python" ++ Py.nl
             ++ Py.dedent (Py.join Py.nl
                  (Spec.lines_through source_lines node_lineno
                     (if node_lineno =? Ast.lineno body0
                      then Ast.lineno body0 else Ast.lineno body0 - 1)))
             ++ Py.nl ++ "```" ++ Py.nl ++ "**UNDOCUMENTED**").
Proof.
  intros D G. destruct (ExtractFacts.declare_type n D) as [t [T _]].
  unfold Docs2md.declaration. rewrite T, D, G.
  destruct (function_parts n) as [[nl b0]|].
  - eexists. split; [reflexivity|]. split; [discriminate|].
    intros node_lineno body0 E H1 H2. injection E as <- <-.
    cbn [docstring]. rewrite docs2md_function_declaration by lia. reflexivity.
  - eexists. split; [reflexivity|]. split; [reflexivity|].
    intros node_lineno body0 E. discriminate E.
Qed.

(** C7 at the class and at the function of [Examples.mixed_source]: the
    text of the class is the sentinel, the text of the function is its
    declaration, fenced, and the sentinel. *)
Lemma C7_undocumented_witness :
  isinstance (Inner (ClassDef "A" 4 [Other 5 []])) _DECLARE_TYPES = true
  /\ get_docstring (Inner (ClassDef "A" 4 [Other 5 []])) = None
  /\ isinstance (Inner (FunctionDef "f" 2 (Other 3 []) [])) _DECLARE_TYPES = true
  /\ get_docstring (Inner (FunctionDef "f" 2 (Other 3 []) [])) = None
  /\ map docstring
       (Docs2md.declaration (Py.splitlines Examples.mixed_source)
          (Inner (ClassDef "A" 4 [Other 5 []])))
     = ["**UNDOCUMENTED**"]
  /\ map docstring
       (Docs2md.declaration (Py.splitlines Examples.mixed_source)
          (Inner (FunctionDef "f" 2 (Other 3 []) [])))
     = ["```python" ++ Py.nl ++ "def f():" ++ Py.nl ++ "```" ++ Py.nl
        ++ "**UNDOCUMENTED**"].
Proof.
  split; [reflexivity|]. split; [reflexivity|].
  split; [reflexivity|]. split; [reflexivity|].
  destruct (C7_undocumented (Py.splitlines Examples.mixed_source)
              (Inner (ClassDef "A" 4 [Other 5 []])) eq_refl eq_refl)
    as [r1 [E1 [C1 _]]].
  destruct (C7_undocumented (Py.splitlines Examples.mixed_source)
              (Inner (FunctionDef "f" 2 (Other 3 []) [])) eq_refl eq_refl)
    as [r2 [E2 [_ F2]]].
  split.
  - rewrite E1. cbn [map]. rewrite (C1 eq_refl). reflexivity.
  - rewrite E2. cbn [map].
    rewrite (F2 2 (Other 3 []) eq_refl ltac:(lia) ltac:(simpl; lia)).
    reflexivity.
Defined.

(** C8, as the specification has it, fails: the chunks of scenario A, put
    together, do not begin with the text the specification gives, which has
    an empty line after the module heading and after the bullet. *)
Lemma C8_scenarioA_text_differs :
  String.prefix
    ("# Module 'fallback'" ++ Py.nl ++ Py.nl ++ "Module doc" ++ Py.nl
     ++ "## Imports" ++ Py.nl ++ "* os" ++ Py.nl ++ Py.nl)
    (String.concat EmptyString
       (yields (events (Docs2md.yield_docstrings Examples.ast_parse
                          (Text Examples.scenarioA_source) "fallback" None))))
  = false
  /\ String.prefix
       ("# Module 'fallback'" ++ Py.nl ++ Py.nl ++ "Module doc" ++ Py.nl)
       (String.concat EmptyString
          (yields (events (Docs2md.yield_docstrings Examples.ast_parse
                             (Text Examples.scenarioA_source) "fallback" None))))
     = false.
Proof. split; reflexivity. Qed.

(** C8, amended: for the source of scenario A, given as a string with a
    fallback name, the renderer yields five chunks: the module heading with
    the fallback name, the docstring, the imports heading, the bullet and an
    empty line; put together they are
    [# Module '<fallback>'], [Module doc], [## Imports], [* os], each ended by
    one newline. *)
Theorem C8_scenarioA (ast_parse : string -> option AST) (module : string)
    (import_file : option IO) :
  ast_parse Examples.scenarioA_source = Some Examples.scenarioA_tree ->
  yields (events (Docs2md.yield_docstrings ast_parse
                    (Text Examples.scenarioA_source) module import_file))
  = ["# Module '" ++ module ++ "'" ++ Py.nl; "Module doc" ++ Py.nl;
     "## Imports" ++ Py.nl; "* os"; Py.nl]
  /\ String.concat EmptyString
       (yields (events (Docs2md.yield_docstrings ast_parse
                          (Text Examples.scenarioA_source) module import_file)))
     = "# Module '" ++ module ++ "'" ++ Py.nl ++ "Module doc" ++ Py.nl
       ++ "## Imports" ++ Py.nl ++ "* os" ++ Py.nl.
Proof.
  intros H.
  assert (E : yields (events (Docs2md.yield_docstrings ast_parse
                                (Text Examples.scenarioA_source) module import_file))
              = ["# Module '" ++ module ++ "'" ++ Py.nl; "Module doc" ++ Py.nl;
                 "## Imports" ++ Py.nl; "* os"; Py.nl]).
  { unfold Docs2md.yield_docstrings, Docs2md.chunks, Docs2md.grouped,
      Docs2md.iter_docstrings, Docs2md.parse_docstrings.
    cbn [resolve snd]. rewrite H. cbn [raised events].
    rewrite ToolFacts.yields_app, ToolFacts.yields_map_Write.
    destruct import_file; reflexivity. }
  split; [exact E|]. rewrite E. simpl.
  rewrite PyFacts.append_assoc. reflexivity.
Qed.

(** C8 at the parser of the examples and the fallback name of the
    scenario. *)
Lemma C8_scenarioA_witness :
  Examples.ast_parse Examples.scenarioA_source = Some Examples.scenarioA_tree
  /\ (yields (events (Docs2md.yield_docstrings Examples.ast_parse
                        (Text Examples.scenarioA_source) "fallback" None))
      = ["# Module '" ++ "fallback" ++ "'" ++ Py.nl; "Module doc" ++ Py.nl;
         "## Imports" ++ Py.nl; "* os"; Py.nl]
      /\ String.concat EmptyString
           (yields (events (Docs2md.yield_docstrings Examples.ast_parse
                              (Text Examples.scenarioA_source) "fallback" None)))
         = "# Module '" ++ "fallback" ++ "'" ++ Py.nl ++ "Module doc" ++ Py.nl
           ++ "## Imports" ++ Py.nl ++ "* os" ++ Py.nl).
Proof.
  split; [reflexivity|].
  exact (C8_scenarioA Examples.ast_parse "fallback" None eq_refl).
Defined.

(** C9, as the specification has it, fails for the module record, whose
    line number is always zero: its heading shows no line number and no
    placeholder. *)
Lemma C9_module_heading_has_no_placeholder :
  ~ Spec.placeholder_for_line_zero "fallback"
      (mkrecord ast_Module None 0 "Module doc")
  /\ map text
       (fst (Docs2md.render_record "fallback" (_NODE_TYPES ast_Module) true
               (mkrecord ast_Module None 0 "Module doc")))
     = ["# Module 'fallback'" ++ Py.nl; "Module doc" ++ Py.nl].
Proof.
  split; [|reflexivity].
  intros H. specialize (H eq_refl eq_refl true).
  vm_compute in H. discriminate H.
Qed.

(** C9, amended: for a class, function or async function record whose
    line number is zero, the heading shows the placeholder in the place of
    the line number; the heading of a module record shows no line number. *)
Theorem C9_placeholder (module : string) (first_import : bool) (tpl : record) :
  Spec.has_line (node tpl) = true ->
  lineno tpl = 0 ->
  map text
    (fst (Docs2md.render_record module (_NODE_TYPES (node tpl)) first_import tpl))
  = [_NODE_TYPES (node tpl) ++ " '" ++ Py.opt_or (name tpl) module ++ "'"
     ++ Py.nl ++ "line ?" ++ Py.nl ++ Py.nl;
     Py.str_or (docstring tpl ++ Py.nl) Py.nl]
  /\ Spec.placeholder_for_line_zero module tpl
  /\ (forall name docstring b,
         map text
           (fst (Docs2md.render_record module (_NODE_TYPES ast_Module) b
                   (mkrecord ast_Module name 0 docstring)))
         = ["# Module '" ++ Py.opt_or name module ++ "'" ++ Py.nl;
            Py.str_or (docstring ++ Py.nl) Py.nl]).
Proof.
  intros L Z0. split; [|split].
  - rewrite RenderFacts.render_record_line by exact L.
    cbn [fst map text]. rewrite Z0. reflexivity.
  - intros _ _ b. rewrite RenderFacts.render_record_line by exact L.
    cbn [fst map text hd_error]. rewrite Z0. reflexivity.
  - intros nm doc b. reflexivity.
Qed.

(** C9 at a function record with line number zero. *)
Lemma C9_placeholder_witness :
  Spec.has_line (node Examples.line_zero_record) = true
  /\ lineno Examples.line_zero_record = 0
  /\ (map text
         (fst (Docs2md.render_record "fallback"
                 (_NODE_TYPES (node Examples.line_zero_record)) true
                 Examples.line_zero_record))
       = [_NODE_TYPES (node Examples.line_zero_record) ++ " '"
          ++ Py.opt_or (name Examples.line_zero_record) "fallback" ++ "'"
          ++ Py.nl ++ "line ?" ++ Py.nl ++ Py.nl;
          Py.str_or (docstring Examples.line_zero_record ++ Py.nl) Py.nl]
       /\ Spec.placeholder_for_line_zero "fallback" Examples.line_zero_record
       /\ (forall name docstring b,
              map text
                (fst (Docs2md.render_record "fallback" (_NODE_TYPES ast_Module) b
                        (mkrecord ast_Module name 0 docstring)))
              = ["# Module '" ++ Py.opt_or name "fallback" ++ "'" ++ Py.nl;
                 Py.str_or (docstring ++ Py.nl) Py.nl])).
Proof.
  split; [reflexivity|]. split; [reflexivity|].
  exact (C9_placeholder "fallback" true Examples.line_zero_record eq_refl eq_refl).
Defined.

(** C10: with an import file given, the run of the renderer is the writes
    of the extractor, one line for each import statement in the order of
    [ast.walk], followed by the chunks: every write comes before the first
    chunk, and none after a chunk. *)
Theorem C10_writes_before_chunks (ast_parse : string -> option AST)
    (source : source_arg) (module : string) (f : IO) :
  let r := Docs2md.yield_docstrings ast_parse source module (Some f) in
  Spec.writes_before_yields (events r)
  /\ events r = (map Write (writes (events r)) ++ map Yield (yields (events r)))%list
  /\ writes (events r)
     = writes (events (Docs2md.parse_docstrings ast_parse
                         (snd (resolve source module)) (Some f)))
  /\ (forall tree,
         ast_parse (snd (resolve source module)) = Some tree ->
         writes (events r)
         = map (fun imports => "├" ++ imports ++ Py.nl)
             (Spec.import_names (walk tree))).
Proof.
  cbv zeta.
  assert (S : forall (ws : list string) (cs : list string),
             writes (map (@Write string) ws ++ map Yield cs) = ws
             /\ yields (map (@Write string) ws ++ map Yield cs) = cs).
  { intros ws cs. rewrite ToolFacts.writes_app, ToolFacts.yields_app.
    rewrite ToolFacts.writes_map_Write, ToolFacts.writes_map_Yield.
    rewrite ToolFacts.yields_map_Write, ToolFacts.yields_map_Yield.
    rewrite app_nil_r. split; reflexivity. }
  assert (E : exists ws cs,
             events (Docs2md.yield_docstrings ast_parse source module (Some f))
             = (map Write ws ++ map Yield cs)%list
             /\ ws = writes (events (Docs2md.parse_docstrings ast_parse
                                       (snd (resolve source module)) (Some f)))).
  { unfold Docs2md.yield_docstrings.
    destruct (raised (Docs2md.parse_docstrings ast_parse
                        (snd (resolve source module)) (Some f))).
    - exists (writes (events (Docs2md.parse_docstrings ast_parse
                                (snd (resolve source module)) (Some f)))).
      exists []. cbn [events map]. rewrite app_nil_r. split; reflexivity.
    - exists (writes (events (Docs2md.parse_docstrings ast_parse
                                (snd (resolve source module)) (Some f)))).
      exists (map text (Docs2md.chunks ast_parse source module (Some f))).
      cbn [events]. rewrite map_map. split; reflexivity. }
  destruct E as [ws [cs [E W]]]. rewrite E.
  destruct (S ws cs) as [S1 S2]. rewrite S1, S2.
  split; [apply ToolFacts.writes_then_yields|].
  split; [reflexivity|]. split; [exact W|].
  intros tree H. rewrite W. unfold Docs2md.parse_docstrings. rewrite H.
  cbn [events]. apply ExtractFacts.visit_writes.
Qed.

(** ** The doctests of the two copies

    [docs2md.py] on the tree of a parser that puts a string on its first
    line gives the tuples of its doctest, and [doc2md.py] on the tree of a
    parser that puts a string on its last line gives the tuples of its
    own. *)
Example docs2md_doctest :
  map Examples.shown
    (yields (events (Docs2md.parse_docstrings
                       (fun _ => Some (Examples.doctest_tree (fun first _ => first)))
                       Examples.doctest_source None)))
  = [ (ast_Module, None, 0);
      (ast_ImportFrom, Some "whatever", 0);
      (ast_ImportFrom, Some "aze.aze.aze", 0);
      (ast_Import, Some "os", 0);
      (ast_Import, Some "sys", 0);
      (ast_FunctionDef, Some "here_is_cool", 12);
      (ast_FunctionDef, Some "undocumented_function", 35);
      (ast_FunctionDef, Some "sub_yo", 24);
      (ast_ClassDef, Some "Blarg", 26);
      (ast_FunctionDef, Some "aze", 30) ].
Proof. reflexivity. Qed.

Example doc2md_doctest :
  map Examples.shown
    (yields (events (Doc2md.parse_docstrings
                       (fun _ => Some (Examples.doctest_tree (fun _ last => last)))
                       Examples.doctest_source None)))
  = [ (ast_Module, None, 0);
      (ast_ImportFrom, Some "whatever", 0);
      (ast_ImportFrom, Some "aze.aze.aze", 0);
      (ast_Import, Some "os", 0);
      (ast_Import, Some "sys", 0);
      (ast_FunctionDef, Some "here_is_cool", 11);
      (ast_FunctionDef, Some "undocumented_function", 34);
      (ast_FunctionDef, Some "sub_yo", 23);
      (ast_ClassDef, Some "Blarg", 26);
      (ast_FunctionDef, Some "aze", 29) ].
Proof. reflexivity. Qed.

Example docs2md_doctest_texts :
  map docstring
    (filter (fun r => negb (Spec.is_import (node r)))
       (yields (events (Docs2md.parse_docstrings
                          (fun _ => Some (Examples.doctest_tree (fun first _ => first)))
                          Examples.doctest_source None))))
  = [ "Module documentation ";
      "```python" ++ Py.nl
      ++ "def here_is_cool(" ++ Py.nl ++ "    a: str" ++ Py.nl ++ ") -> t[" ++ Py.nl
      ++ "    azeaze," ++ Py.nl ++ "    azeaze" ++ Py.nl ++ "]:" ++ Py.nl
      ++ "```" ++ Py.nl
      ++ "typical docstring" ++ Py.nl
      ++ "- Args:" ++ Py.nl
      ++ "    - a (str): example_input" ++ Py.nl
      ++ "- Returns:" ++ Py.nl
      ++ "    - t[azeaze,azeaze]: Example of complicated return type";
      "```python" ++ Py.nl ++ "def undocumented_function(aze):" ++ Py.nl
      ++ "```" ++ Py.nl ++ "**UNDOCUMENTED**";
      "```python" ++ Py.nl ++ "def sub_yo(aze: str):" ++ Py.nl
      ++ "```" ++ Py.nl ++ "sub function";
      "sub class ";
      "```python" ++ Py.nl ++ "def aze(self, a):" ++ Py.nl
      ++ "```" ++ Py.nl ++ "sub-function of subclass " ].
Proof. reflexivity. Qed.

(** ** The library model on small inputs *)
Example splitlines_ex :
  Py.splitlines ("a" ++ Py.nl ++ Py.nl ++ "b" ++ Py.nl) = ["a"; EmptyString; "b"]
  /\ Py.splitlines EmptyString = []
  /\ List.length (Py.splitlines Examples.typical_docstring) = 6%nat.
Proof. repeat split. Qed.

Example dedent_ex :
  Py.dedent ("  def f(" ++ Py.nl ++ "      a):") = "def f(" ++ Py.nl ++ "    a):".
Proof. reflexivity. Qed.

Example cleandoc_ex :
  Py.cleandoc " Module documentation " = "Module documentation "
  /\ Py.cleandoc (Py.nl ++ "    a" ++ Py.nl ++ "      b" ++ Py.nl ++ "    ")
     = "a" ++ Py.nl ++ "  b".
Proof. split; reflexivity. Qed.

Example slice_ex :
  Py.slice ["a"; "b"; "c"; "d"] 1 3 = ["b"; "c"]
  /\ Py.slice ["a"; "b"; "c"; "d"] 0 (-1) = ["a"; "b"; "c"]
  /\ Py.slice ["a"; "b"; "c"; "d"] 2 9 = ["c"; "d"]
  /\ Py.slice ["a"; "b"; "c"; "d"] 3 1 = [].
Proof. repeat split. Qed.

Example str_of_int_ex :
  Py.str_of_int 12 = "12" /\ Py.str_of_int 0 = "0" /\ Py.str_of_int (-3) = "-3".
Proof. repeat split. Qed.

Example sorted_ex :
  Py.sorted snd [("a", 3); ("b", 0); ("c", 3); ("d", 0)]
  = [("b", 0); ("d", 0); ("a", 3); ("c", 3)].
Proof. reflexivity. Qed.

Example groupby_ex :
  Py.groupby (fun x => x) ["a"; "a"; "b"; "a"]
  = [("a", ["a"; "a"]); ("b", ["b"]); ("a", ["a"])].
Proof. reflexivity. Qed.

Example module_name_ex :
  Py.splitext_root (Py.basename "src/docs2md/docs2md.py") = "docs2md"
  /\ Py.splitext_root ".bashrc" = ".bashrc"
  /\ fst (resolve (File (Some "a/b/tool.tar.gz") EmptyString) "fallback") = "tool.tar"
  /\ fst (resolve (File None EmptyString) "fallback.py") = "fallback".
Proof. repeat split. Qed.

(** The renderer of [docs2md.py] on [Examples.mixed_source], with an import
    file: the write, then the chunks in the order of the line numbers. *)
Example docs2md_mixed :
  events (Docs2md.yield_docstrings Examples.ast_parse
            (Text Examples.mixed_source) "fallback" (Some (TextIO "imports.txt")))
  = [ Write ("├os" ++ Py.nl);
      Yield ("# Module 'fallback'" ++ Py.nl);
      Yield ("**UNDOCUMENTED**" ++ Py.nl);
      Yield ("## Imports" ++ Py.nl);
      Yield "* os";
      Yield Py.nl;
      Yield (Py.nl ++ "### Function 'f'" ++ Py.nl ++ "line 3" ++ Py.nl ++ Py.nl);
      Yield ("```python" ++ Py.nl ++ "def f():" ++ Py.nl ++ "```" ++ Py.nl
             ++ "**UNDOCUMENTED**" ++ Py.nl);
      Yield (Py.nl ++ "## Class 'A'" ++ Py.nl ++ "line 4" ++ Py.nl ++ Py.nl);
      Yield ("**UNDOCUMENTED**" ++ Py.nl) ].
Proof. reflexivity. Qed.

(** * Properties beyond the claims *)
Module MoreFacts.
Import Ast Tool.

Section SortedMore.
Context {A : Type} (key : A -> Z).

Lemma insert_front (x : A) (l : list A) :
  Forall (fun y => key x <= key y) l -> Py.insert key x l = x :: l.
Proof.
  destruct 1 as [|y l Hy Hl]; [reflexivity|].
  simpl. apply Z.leb_le in Hy. rewrite Hy. reflexivity.
Qed.

Lemma insert_past (x : A) (small rest : list A) :
  Forall (fun z => key z < key x) small ->
  Py.insert key x (small ++ rest) = (small ++ Py.insert key x rest)%list.
Proof.
  induction 1 as [|z small Hz Hs IH]; [reflexivity|].
  cbn [app Py.insert].
  assert (E : (key x <=? key z) = false) by (apply Z.leb_gt; exact Hz).
  rewrite E, IH. reflexivity.
Qed.

Lemma sorted_keeps (P : A -> Prop) (l : list A) :
  Forall P l -> Forall P (Py.sorted key l).
Proof.
  intros H. eapply Permutation_Forall; [|exact H].
  apply Permutation_sym, PyFacts.sorted_perm.
Qed.

(** When no key is negative, the sorted list is the elements of key 0 in
    their order, then the others sorted. *)
Lemma sorted_split_zero (l : list A) :
  Forall (fun x => 0 <= key x) l ->
  Py.sorted key l
  = (filter (fun x => key x =? 0) l
     ++ Py.sorted key (filter (fun x => negb (key x =? 0)) l))%list.
Proof.
  induction 1 as [|x l Hx Hl IH]; [reflexivity|].
  cbn [Py.sorted filter]. destruct (key x =? 0) eqn:E; cbn [negb].
  - apply Z.eqb_eq in E. rewrite insert_front.
    + rewrite IH. reflexivity.
    + eapply Forall_impl; [|exact (sorted_keeps _ l Hl)].
      intros y Hy. simpl in Hy. lia.
  - apply Z.eqb_neq in E. rewrite IH. cbn [Py.sorted].
    apply insert_past.
    apply Forall_forall. intros z Hz. apply filter_In in Hz.
    destruct Hz as [_ Hz]. apply Z.eqb_eq in Hz. lia.
Qed.

Lemma filter_within_key (p : A -> bool) (k : Z) (l : list A) :
  Forall (fun x => p x = true -> key x = k) l ->
  filter p (filter (fun x => key x =? k) l) = filter p l.
Proof.
  induction 1 as [|x l Hx Hl IH]; [reflexivity|].
  cbn [filter]. destruct (key x =? k) eqn:E.
  - cbn [filter]. rewrite IH. reflexivity.
  - rewrite IH. destruct (p x) eqn:Px; [|reflexivity].
    apply Z.eqb_neq in E. elim E. exact (Hx eq_refl).
Qed.

(** Sorting keeps the order of the elements picked by [p] when they all
    have the same key. *)
Lemma filter_sorted_one_key (p : A -> bool) (k : Z) (l : list A) :
  Forall (fun x => p x = true -> key x = k) l ->
  filter p (Py.sorted key l) = filter p l.
Proof.
  intros H.
  rewrite <- (filter_within_key p k (Py.sorted key l)) by (apply sorted_keeps, H).
  rewrite PyFacts.sorted_stable. apply filter_within_key, H.
Qed.
End SortedMore.

Lemma yields_visit_any_file (source_lines : list string) (f : IO) (n : AST) :
  yields (Docs2md.visit source_lines (Some f) n)
  = yields (Docs2md.visit source_lines None n)
  /\ writes (Docs2md.visit source_lines None n) = [].
Proof.
  unfold Docs2md.visit. rewrite !ToolFacts.yields_app, ToolFacts.writes_app.
  rewrite ToolFacts.writes_map_Yield, !ExtractFacts.get_imports_yields.
  rewrite ExtractFacts.get_imports_no_file. split; reflexivity.
Qed.

Lemma extraction_any_file (source_lines : list string) (f : IO) (ns : list AST) :
  yields (flat_map (Docs2md.visit source_lines (Some f)) ns)
  = yields (flat_map (Docs2md.visit source_lines None) ns)
  /\ writes (flat_map (Docs2md.visit source_lines None) ns) = [].
Proof.
  induction ns as [|n ns [IH1 IH2]]; [split; reflexivity|].
  cbn [flat_map]. rewrite !ToolFacts.yields_app, ToolFacts.writes_app.
  destruct (yields_visit_any_file source_lines f n) as [E1 E2].
  rewrite E1, E2, IH1, IH2. split; reflexivity.
Qed.

Lemma yields_of_run (ws : list string) (cs : list string) :
  yields (map (@Write string) ws ++ map Yield cs) = cs
  /\ writes (map (@Write string) ws ++ map Yield cs) = ws.
Proof.
  rewrite ToolFacts.yields_app, ToolFacts.writes_app.
  rewrite ToolFacts.yields_map_Write, ToolFacts.yields_map_Yield.
  rewrite ToolFacts.writes_map_Write, ToolFacts.writes_map_Yield.
  rewrite app_nil_r. split; reflexivity.
Qed.

(** The events of the renderer: the writes of the extractor, then the
    chunks, which are none when the parser raises. *)
Lemma yield_docstrings_events (ast_parse : string -> option AST)
    (source : source_arg) (module : string) (import_file : option IO) :
  events (Docs2md.yield_docstrings ast_parse source module import_file)
  = (map Write
       (writes (events (Docs2md.parse_docstrings ast_parse
                          (snd (resolve source module)) import_file)))
     ++ map Yield
          (match ast_parse (snd (resolve source module)) with
           | Some _ => map text (Docs2md.chunks ast_parse source module import_file)
           | None => []
           end))%list
  /\ raised (Docs2md.yield_docstrings ast_parse source module import_file)
     = match ast_parse (snd (resolve source module)) with
       | Some _ => None
       | None => Some SyntaxError
       end.
Proof.
  unfold Docs2md.yield_docstrings, Docs2md.parse_docstrings.
  destruct (ast_parse (snd (resolve source module))) as [tree|]; cbn [raised events].
  - rewrite map_map. split; reflexivity.
  - split; reflexivity.
Qed.

End MoreFacts.

(** The chunks do not depend on the import file. *)
Lemma yields_any_import_file (ast_parse : string -> option AST)
    (source : source_arg) (module : string) (f : IO) :
  yields (events (Docs2md.yield_docstrings ast_parse source module (Some f)))
  = yields (events (Docs2md.yield_docstrings ast_parse source module None))
  /\ writes (events (Docs2md.yield_docstrings ast_parse source module None)) = [].
Proof.
  assert (E : forall src,
             yields (events (Docs2md.parse_docstrings ast_parse src (Some f)))
             = yields (events (Docs2md.parse_docstrings ast_parse src None))
             /\ writes (events (Docs2md.parse_docstrings ast_parse src None)) = []).
  { intros src. unfold Docs2md.parse_docstrings.
    destruct (ast_parse src) as [tree|]; cbn [events]; [|split; reflexivity].
    apply MoreFacts.extraction_any_file. }
  destruct (MoreFacts.yield_docstrings_events ast_parse source module (Some f)) as [E1 _].
  destruct (MoreFacts.yield_docstrings_events ast_parse source module None) as [E2 _].
  rewrite E1, E2.
  destruct (MoreFacts.yields_of_run
              (writes (events (Docs2md.parse_docstrings ast_parse
                                 (snd (resolve source module)) (Some f))))
              (match ast_parse (snd (resolve source module)) with
               | Some _ => map text (Docs2md.chunks ast_parse source module (Some f))
               | None => []
               end)) as [Y1 _].
  destruct (MoreFacts.yields_of_run
              (writes (events (Docs2md.parse_docstrings ast_parse
                                 (snd (resolve source module)) None)))
              (match ast_parse (snd (resolve source module)) with
               | Some _ => map text (Docs2md.chunks ast_parse source module None)
               | None => []
               end)) as [Y2 W2].
  rewrite Y1, Y2, W2.
  destruct (E (snd (resolve source module))) as [Ey Ew].
  split; [|exact Ew].
  destruct (ast_parse (snd (resolve source module))); [|reflexivity].
  unfold Docs2md.chunks, Docs2md.grouped, Docs2md.iter_docstrings.
  destruct (resolve source module) as [m src]. cbn [snd] in Ey. rewrite Ey.
  reflexivity.
Qed.

(** X1: the import file is a side channel only.  With or without it the
    renderer of [docs2md.py] yields the same chunks, and without it nothing
    is written at all. *)
Theorem X1_import_file_changes_no_chunk (ast_parse : string -> option AST)
    (source : source_arg) (module : string) (f : IO) :
  yields (events (Docs2md.yield_docstrings ast_parse source module (Some f)))
  = yields (events (Docs2md.yield_docstrings ast_parse source module None))
  /\ writes (events (Docs2md.yield_docstrings ast_parse source module None)) = [].
Proof. exact (yields_any_import_file ast_parse source module f). Qed.

Module CountFacts.
Import Ast Tool.

Lemma docs2md_visit_classes (source_lines : list string) (f : option IO) (n : AST) :
  map node (yields (Docs2md.visit source_lines f n)) = Layout.classes [n].
Proof.
  unfold Docs2md.visit. rewrite ToolFacts.yields_app, ToolFacts.yields_map_Yield.
  destruct n as [b|[]]; destruct f; reflexivity.
Qed.

Lemma doc2md_visit_classes (source_lines : list string) (f : option IO) (n : AST) :
  map node (yields (Doc2md.visit source_lines f n)) = Layout.classes [n].
Proof.
  unfold Doc2md.visit. rewrite ToolFacts.yields_app, ToolFacts.yields_map_Yield.
  destruct n as [b|[]]; destruct f; reflexivity.
Qed.

Lemma classes_cons (n : AST) (ns : list AST) :
  Layout.classes (n :: ns) = (Layout.classes [n] ++ Layout.classes ns)%list.
Proof. unfold Layout.classes. simpl. rewrite app_nil_r. reflexivity. Qed.

Lemma extraction_classes (visit : AST -> list (event record)) (ns : list AST) :
  (forall n, map node (yields (visit n)) = Layout.classes [n]) ->
  map node (yields (flat_map visit ns)) = Layout.classes ns.
Proof.
  intros H. induction ns as [|n ns IH]; [reflexivity|].
  cbn [flat_map]. rewrite ToolFacts.yields_app, map_app, H, IH, (classes_cons n ns).
  reflexivity.
Qed.

Lemma doc2md_render_groups (module : string) (l : list record) :
  Doc2md.render_groups module (Py.groupby (fun tpl => _NODE_TYPES (node tpl)) l)
  = flat_map (fun tpl => Doc2md.render_record module (_NODE_TYPES (node tpl)) tpl) l.
Proof.
  rewrite <- (PyFacts.groupby_concat (fun tpl => _NODE_TYPES (node tpl)) l) at 2.
  pose proof (PyFacts.groupby_keys (fun tpl => _NODE_TYPES (node tpl)) l) as K.
  induction K as [|[k g] gs Hg Hgs IH]; [reflexivity|].
  unfold Doc2md.render_groups in *. cbn [flat_map map List.concat snd].
  rewrite flat_map_app, IH. f_equal.
  cbn [fst snd] in Hg. clear -Hg.
  induction Hg as [|r g Hr Hg IH]; [reflexivity|].
  cbn [flat_map]. rewrite IH, Hr. reflexivity.
Qed.

Lemma text_not_empty (c : chunk) : text c <> EmptyString.
Proof.
  destruct c as [t n| |n|t n|t n l|d]; cbn [text].
  - destruct t; discriminate.
  - discriminate.
  - discriminate.
  - destruct t; discriminate.
  - destruct t; discriminate.
  - unfold Py.str_or, Py.truthy. destruct d; discriminate.
Qed.

Lemma text_docstring (d : string) : text (Docstring d) = d ++ Py.nl.
Proof. cbn [text]. unfold Py.str_or, Py.truthy. destruct d; reflexivity. Qed.

End CountFacts.

(** X2: in both copies the extractor yields one tuple for each module,
    class, function, async function and import node [ast.walk] yields,
    however deep the node is nested, in the order of the walk, and none for
    any other node. *)
Theorem X2_one_record_for_each_node (ast_parse : string -> option AST)
    (source : string) (import_file : option IO) (tree : AST) :
  ast_parse source = Some tree ->
  map node (yields (events (Docs2md.parse_docstrings ast_parse source import_file)))
  = Layout.classes (walk tree)
  /\ map node (yields (events (Doc2md.parse_docstrings ast_parse source import_file)))
     = Layout.classes (walk tree).
Proof.
  intros H. unfold Docs2md.parse_docstrings, Doc2md.parse_docstrings.
  rewrite H. cbn [events]. split.
  - apply CountFacts.extraction_classes. intros n.
    apply CountFacts.docs2md_visit_classes.
  - apply CountFacts.extraction_classes. intros n.
    apply CountFacts.doc2md_visit_classes.
Qed.

(** X2 at the example of the doctest, with its class in a function and its
    function in that class. *)
Lemma X2_one_record_for_each_node_witness :
  (fun _ : string => Some (Examples.doctest_tree (fun first _ => first)))
    Examples.doctest_source
  = Some (Examples.doctest_tree (fun first _ => first))
  /\ (map node
        (yields (events (Docs2md.parse_docstrings
                           (fun _ => Some (Examples.doctest_tree (fun first _ => first)))
                           Examples.doctest_source None)))
      = Layout.classes (walk (Examples.doctest_tree (fun first _ => first)))
      /\ map node
           (yields (events (Doc2md.parse_docstrings
                              (fun _ => Some (Examples.doctest_tree (fun first _ => first)))
                              Examples.doctest_source None)))
         = Layout.classes (walk (Examples.doctest_tree (fun first _ => first)))).
Proof.
  split; [reflexivity|].
  exact (X2_one_record_for_each_node
           (fun _ => Some (Examples.doctest_tree (fun first _ => first)))
           Examples.doctest_source None
           (Examples.doctest_tree (fun first _ => first)) eq_refl).
Defined.

(** X3: grouping the sorted records by heading changes nothing of the
    output.  In both copies the chunks are those of the sorted records taken
    one by one, each under the heading of its own class (in [docs2md.py]
    with the flag of the first import carried along). *)
Theorem X3_grouping_changes_nothing (ast_parse : string -> option AST)
    (source : source_arg) (module : string) (import_file : option IO) :
  Docs2md.chunks ast_parse source module import_file
  = Spec.render_all (fst (resolve source module)) true
      (Docs2md.iter_docstrings ast_parse (snd (resolve source module)) import_file)
  /\ Doc2md.chunks ast_parse source module import_file
     = flat_map
         (fun tpl =>
            Doc2md.render_record (fst (resolve source module))
              (_NODE_TYPES (node tpl)) tpl)
         (Doc2md.iter_docstrings ast_parse (snd (resolve source module)) import_file).
Proof.
  split; [apply RenderFacts.chunks_render_all|].
  unfold Doc2md.chunks, Doc2md.grouped.
  destruct (resolve source module) as [m src]. cbn [fst snd].
  apply CountFacts.doc2md_render_groups.
Qed.

(** X4: the renderer of [docs2md.py] never yields an empty string, and the
    chunk after a heading is the text of the record followed by a newline:
    the alternative of the last [yield] statement is never taken. *)
Theorem X4_no_empty_chunk (ast_parse : string -> option AST)
    (source : source_arg) (module : string) (import_file : option IO) :
  Forall (fun s => s <> EmptyString)
    (yields (events (Docs2md.yield_docstrings ast_parse source module import_file)))
  /\ (forall docstring, text (Docstring docstring) = docstring ++ Py.nl).
Proof.
  split; [|apply CountFacts.text_docstring].
  destruct (MoreFacts.yield_docstrings_events ast_parse source module import_file)
    as [E _].
  rewrite E.
  destruct (MoreFacts.yields_of_run
              (writes (events (Docs2md.parse_docstrings ast_parse
                                 (snd (resolve source module)) import_file)))
              (match ast_parse (snd (resolve source module)) with
               | Some _ => map text (Docs2md.chunks ast_parse source module import_file)
               | None => []
               end)) as [Y _].
  rewrite Y. destruct (ast_parse (snd (resolve source module))); [|constructor].
  apply Forall_forall. intros s Hs. apply in_map_iff in Hs.
  destruct Hs as [c [<- _]]. apply CountFacts.text_not_empty.
Qed.

(** X5: a docstring that is empty once cleaned counts as missing.  For a
    module, class or function node whose first statement is a string
    expression which [cleandoc] turns into the empty string, [docs2md.py]
    yields the sentinel: alone for a module or a class, and for a function
    on line [node_lineno >= 1] with that statement on line [l >= 1] after
    the fenced source lines from [node_lineno] to the line before [l], or
    the one line [node_lineno] when the two are equal. *)
Theorem X5_empty_docstring_is_undocumented (source_lines : list string)
    (n : AST) (l sl : Z) (s : string) (rest : list Ast.node) :
  isinstance n _DECLARE_TYPES = true ->
  body n = Expr l (Str sl s) :: rest ->
  Py.cleandoc s = EmptyString ->
  exists r,
    Docs2md.declaration source_lines n = [r]
    /\ (function_parts n = None -> docstring r = "**UNDOCUMENTED**")
    /\ (forall node_lineno body0,
           function_parts n = Some (node_lineno, body0) ->
           1 <= node_lineno ->
           1 <= l ->
           body0 = Expr l (Str sl s)
           /\ lineno r = l
           /\ docstring r
              = "```python" ++ Py.nl
                ++ Py.dedent (Py.join Py.nl
                     (Spec.lines_through source_lines node_lineno
                        (if node_lineno =? l then l else l - 1)))
                ++ Py.nl ++ "```" ++ Py.nl ++ "**UNDOCUMENTED**").
Proof.
  intros D B C. destruct (ExtractFacts.declare_type n D) as [t [T _]].
  assert (G : get_docstring n = Some EmptyString)
    by (unfold get_docstring; rewrite B, C; reflexivity).
  unfold Docs2md.declaration. rewrite T, D, G.
  destruct (function_parts n) as [[nl b0]|] eqn:F.
  - eexists. split; [reflexivity|]. split; [discriminate|].
    intros node_lineno body0 E H1 H2. injection E as <- <-.
    assert (B0 : b0 = Expr l (Str sl s)).
    { destruct n as [b|[]]; cbn in F; try discriminate;
        injection F as <- <-; cbn in B; injection B as -> _; reflexivity. }
    subst b0. split; [reflexivity|]. split; [reflexivity|].
    cbn [docstring Ast.lineno].
    rewrite docs2md_function_declaration by (cbn [Ast.lineno]; lia).
    reflexivity.
  - eexists. split; [reflexivity|]. split; [reflexivity|].
    intros node_lineno body0 E. discriminate E.
Qed.

(** X5 at a class and at a function whose docstring is a no-break space
    and a space: the text of the class is the sentinel, the text of the
    function its declaration, fenced, and the sentinel. *)
Lemma X5_empty_docstring_is_undocumented_witness :
  Py.cleandoc Layout.blank_docstring = EmptyString
  /\ map docstring
       (Docs2md.declaration ["class A:"]
          (Inner (ClassDef "A" 1 [Expr 2 (Str 2 Layout.blank_docstring)])))
     = ["**UNDOCUMENTED**"]
  /\ map docstring
       (Docs2md.declaration ["def f():"]
          (Inner (FunctionDef "f" 1 (Expr 2 (Str 2 Layout.blank_docstring)) [])))
     = ["```python" ++ Py.nl ++ "def f():" ++ Py.nl ++ "```" ++ Py.nl
        ++ "**UNDOCUMENTED**"].
Proof.
  split; [reflexivity|].
  destruct (X5_empty_docstring_is_undocumented ["class A:"]
              (Inner (ClassDef "A" 1 [Expr 2 (Str 2 Layout.blank_docstring)]))
              2 2 Layout.blank_docstring [] eq_refl eq_refl eq_refl)
    as [r1 [E1 [C1 _]]].
  destruct (X5_empty_docstring_is_undocumented ["def f():"]
              (Inner (FunctionDef "f" 1 (Expr 2 (Str 2 Layout.blank_docstring)) []))
              2 2 Layout.blank_docstring [] eq_refl eq_refl eq_refl)
    as [r2 [E2 [_ F2]]].
  split.
  - rewrite E1. cbn [map]. rewrite (C1 eq_refl). reflexivity.
  - rewrite E2. cbn [map].
    destruct (F2 1 (Expr 2 (Str 2 Layout.blank_docstring)) eq_refl
                ltac:(lia) ltac:(lia)) as [_ [_ D2]].
    rewrite D2. reflexivity.
Defined.

Module LayoutFacts.
Import Ast Tool.

Lemma walked_numbered (roots : list Ast.node) :
  Layout.lines_from_one roots ->
  Forall Layout.numbered_from_one (walk_queue (sizes roots) roots).
Proof.
  intros H. apply Forall_forall. intros n Hn.
  apply WalkFacts.walk_queue_within in Hn. split.
  - apply H, Hn.
  - apply Forall_forall. intros c Hc. apply H.
    exact (within_child roots n c Hn Hc).
Qed.

Lemma declaration_lines (source_lines : list string) (n : Ast.node) :
  Layout.numbered_from_one n ->
  Forall (fun r => 1 <= lineno r) (Docs2md.declaration source_lines (Inner n)).
Proof.
  intros [H1 H2]. destruct n; cbn; try (apply Forall_nil).
  - apply Forall_cons; [|apply Forall_nil]. cbn [lineno].
    cbn [iter_child_nodes] in H2. apply Forall_cons_iff in H2. apply H2.
  - apply Forall_cons; [|apply Forall_nil]. cbn [lineno].
    cbn [iter_child_nodes] in H2. apply Forall_cons_iff in H2. apply H2.
  - apply Forall_cons; [|apply Forall_nil]. exact H1.
Qed.

Lemma import_records_line_zero (ns : list AST) :
  Forall (fun r => lineno r = 0) (Spec.import_records ns).
Proof.
  induction ns as [|n ns IH]; [constructor|].
  rewrite ExtractFacts.import_records_cons. apply Forall_app. split; [|exact IH].
  destruct n as [b|[]]; repeat constructor.
Qed.

Lemma yields_visit (source_lines : list string) (f : option IO) (n : AST) :
  yields (Docs2md.visit source_lines f n)
  = (Docs2md.declaration source_lines n ++ Spec.import_records [n])%list.
Proof.
  unfold Docs2md.visit.
  rewrite ToolFacts.yields_app, ToolFacts.yields_map_Yield.
  rewrite ExtractFacts.get_imports_yields. reflexivity.
Qed.

(** The records of nodes with line numbers from 1 on: those of line 0 are
    the import records, the others the records of the declarations. *)
Lemma extraction_by_line (source_lines : list string) (f : option IO)
    (ns : list Ast.node) :
  Forall Layout.numbered_from_one ns ->
  filter (fun r => lineno r =? 0)
    (yields (flat_map (Docs2md.visit source_lines f) (map Inner ns)))
  = Spec.import_records (map Inner ns)
  /\ filter (fun r => negb (lineno r =? 0))
       (yields (flat_map (Docs2md.visit source_lines f) (map Inner ns)))
     = flat_map (Docs2md.declaration source_lines) (map Inner ns)
  /\ Forall (fun r => 0 <= lineno r)
       (yields (flat_map (Docs2md.visit source_lines f) (map Inner ns))).
Proof.
  induction 1 as [|n ns Hn Hns [IH1 [IH2 IH3]]]; [repeat split; constructor|].
  cbn [map flat_map]. rewrite ToolFacts.yields_app, yields_visit.
  rewrite !filter_app, IH1, IH2.
  pose proof (declaration_lines source_lines n Hn) as D.
  pose proof (import_records_line_zero [Inner n]) as Z0.
  assert (D0 : filter (fun r => lineno r =? 0)
                 (Docs2md.declaration source_lines (Inner n)) = []).
  { apply ExtractFacts.filter_none. eapply Forall_impl; [|exact D].
    intros r Hr. apply Z.eqb_neq. simpl in Hr. lia. }
  assert (D1 : filter (fun r => negb (lineno r =? 0))
                 (Docs2md.declaration source_lines (Inner n))
               = Docs2md.declaration source_lines (Inner n)).
  { apply ExtractFacts.filter_all. eapply Forall_impl; [|exact D].
    intros r Hr. simpl in Hr. apply negb_true_iff, Z.eqb_neq. lia. }
  assert (I0 : filter (fun r => lineno r =? 0) (Spec.import_records [Inner n])
               = Spec.import_records [Inner n]).
  { apply ExtractFacts.filter_all. eapply Forall_impl; [|exact Z0].
    intros r Hr. simpl in Hr. apply Z.eqb_eq. exact Hr. }
  assert (I1 : filter (fun r => negb (lineno r =? 0)) (Spec.import_records [Inner n])
               = []).
  { apply ExtractFacts.filter_none. eapply Forall_impl; [|exact Z0].
    intros r Hr. simpl in Hr. rewrite Hr. reflexivity. }
  rewrite D0, D1, I0, I1, app_nil_r. split; [|split].
  - rewrite (ExtractFacts.import_records_cons (Inner n) (map Inner ns)).
    reflexivity.
  - reflexivity.
  - apply Forall_app. split; [|exact IH3]. apply Forall_app. split.
    + eapply Forall_impl; [|exact D]. intros r Hr. simpl in Hr. lia.
    + eapply Forall_impl; [|exact Z0]. intros r Hr. simpl in Hr. lia.
Qed.

Lemma flat_declaration_not_import (source_lines : list string) (ns : list AST) :
  Forall (fun r => Spec.is_import (node r) = false)
    (flat_map (Docs2md.declaration source_lines) ns).
Proof.
  induction ns as [|n ns IH]; [constructor|].
  cbn [flat_map]. apply Forall_app. split; [|exact IH].
  apply ExtractFacts.declaration_not_import.
Qed.

Lemma render_record_declared (module : string) (b : bool) (r : record) :
  Spec.is_import (node r) = false ->
  Docs2md.render_record module (_NODE_TYPES (node r)) b r
  = (Layout.declared module r, b).
Proof.
  destruct r as [t nm ln doc]. cbn [node]. intros H.
  destruct t; try discriminate; reflexivity.
Qed.

Lemma render_all_declared (module : string) (b : bool) (l : list record) :
  Forall (fun r => Spec.is_import (node r) = false) l ->
  Spec.render_all module b l = flat_map (Layout.declared module) l.
Proof.
  induction 1 as [|r l Hr Hl IH]; [reflexivity|].
  cbn [Spec.render_all flat_map]. rewrite render_record_declared by exact Hr.
  rewrite IH. reflexivity.
Qed.

Lemma render_all_bullets (module : string) (imports rest : list record) :
  Forall (fun r => Spec.is_import (node r) = true) imports ->
  Spec.render_all module false (imports ++ rest)
  = (flat_map (Layout.bullet module) imports
     ++ Spec.render_all module false rest)%list.
Proof.
  induction 1 as [|r l Hr Hl IH]; [reflexivity|].
  cbn [app Spec.render_all flat_map].
  rewrite RenderFacts.render_record_import by exact Hr. rewrite IH. reflexivity.
Qed.

Lemma render_all_imports_first (module : string) (imports rest : list record) :
  Forall (fun r => Spec.is_import (node r) = true) imports ->
  Forall (fun r => Spec.is_import (node r) = false) rest ->
  Spec.render_all module true (imports ++ rest)
  = (Layout.imports_section module imports
     ++ flat_map (Layout.declared module) rest)%list.
Proof.
  intros Hi Hr. destruct Hi as [|r l Hr0 Hl].
  - apply render_all_declared, Hr.
  - cbn [app Spec.render_all Layout.imports_section flat_map].
    rewrite RenderFacts.render_record_import by exact Hr0.
    rewrite render_all_bullets by exact Hl.
    rewrite render_all_declared by exact Hr.
    cbn [app Layout.bullet]. rewrite <- ?app_assoc. reflexivity.
Qed.

Lemma bullets_of_render_all (module : string) (b : bool) (l : list record) :
  filter Spec.is_import_bullet (Spec.render_all module b l)
  = map (fun r => ImportBullet (Py.opt_or (name r) module))
      (filter (fun r => Spec.is_import (node r)) l).
Proof.
  revert b. induction l as [|r l IH]; intros b; [reflexivity|].
  cbn [Spec.render_all filter]. destruct (Spec.is_import (node r)) eqn:I.
  - rewrite RenderFacts.render_record_import by exact I.
    rewrite filter_app, IH. destruct b; reflexivity.
  - rewrite render_record_declared by exact I.
    rewrite filter_app, IH. destruct r as [t nm ln doc]. cbn [node] in I.
    destruct t; try discriminate; reflexivity.
Qed.

Lemma imports_at_line_zero (source_lines : list string) (f : option IO)
    (ns : list AST) :
  Forall (fun r => Spec.is_import (node r) = true -> lineno r = 0)
    (yields (flat_map (Docs2md.visit source_lines f) ns)).
Proof.
  induction ns as [|n ns IH]; [constructor|].
  cbn [flat_map]. rewrite ToolFacts.yields_app, yields_visit.
  apply Forall_app. split; [|exact IH]. apply Forall_app. split.
  - eapply Forall_impl; [|exact (ExtractFacts.declaration_not_import source_lines n)].
    intros r Hr Hi. simpl in Hr. congruence.
  - eapply Forall_impl; [|exact (import_records_line_zero [n])].
    intros r Hr _. exact Hr.
Qed.

Lemma common_visit (source_lines : list string) (f : option IO) (n : AST) :
  map Layout.common (yields (Docs2md.visit source_lines f n))
  = map Layout.common (yields (Doc2md.visit source_lines f n)).
Proof.
  unfold Docs2md.visit, Doc2md.visit.
  rewrite !ToolFacts.yields_app, !ToolFacts.yields_map_Yield.
  destruct n as [b|[]]; destruct f; reflexivity.
Qed.

End LayoutFacts.

Module OutputFacts.
Import Ast Tool.

(** The sorted records of a module whose nodes have line numbers from 1
    on. *)
Lemma records_layout (ast_parse : string -> option AST) (source : string)
    (f : option IO) (b : list Ast.node) :
  ast_parse source = Some (Module b) ->
  Layout.lines_from_one b ->
  Docs2md.iter_docstrings ast_parse source f
  = (Layout.module_record b
     :: Spec.import_records (walk (Module b))
     ++ Py.sorted lineno (Layout.declarations (Py.splitlines source) b))%list.
Proof.
  intros H L. unfold Docs2md.iter_docstrings, Docs2md.parse_docstrings.
  rewrite H. cbn [events]. rewrite WalkFacts.walk_module.
  unfold Layout.declarations. rewrite WalkFacts.walk_module. cbn [List.tl flat_map].
  rewrite ToolFacts.yields_app, LayoutFacts.yields_visit.
  destruct (LayoutFacts.extraction_by_line (Py.splitlines source) f
              (walk_queue (sizes b) b) (LayoutFacts.walked_numbered b L))
    as [E0 [E1 E2]].
  change (Docs2md.declaration (Py.splitlines source) (Module b))
    with [Layout.module_record b].
  change (Spec.import_records [Module b]) with (@nil record).
  cbn [app]. rewrite MoreFacts.sorted_split_zero.
  - cbn [filter lineno Layout.module_record Z.eqb negb].
    rewrite E0, E1.
    rewrite (ExtractFacts.import_records_cons (Module b)). reflexivity.
  - constructor; [cbn; lia | exact E2].
Qed.

Lemma declarations_not_import (source_lines : list string) (b : list Ast.node) :
  Forall (fun r => Spec.is_import (node r) = false)
    (Py.sorted lineno (Layout.declarations source_lines b)).
Proof.
  apply MoreFacts.sorted_keeps, LayoutFacts.flat_declaration_not_import.
Qed.

Lemma declarations_lines (source_lines : list string) (b : list Ast.node) :
  Layout.lines_from_one b ->
  Forall (fun r => 1 <= lineno r)
    (Py.sorted lineno (Layout.declarations source_lines b)).
Proof.
  intros L. apply MoreFacts.sorted_keeps. unfold Layout.declarations.
  rewrite WalkFacts.walk_module. cbn [List.tl].
  pose proof (LayoutFacts.walked_numbered b L) as W.
  induction W as [|n ns Hn Hns IH]; [constructor|].
  cbn [map flat_map]. apply Forall_app. split; [|exact IH].
  apply LayoutFacts.declaration_lines, Hn.
Qed.

Lemma walked_lines (b : list Ast.node) :
  Forall (fun n => 1 <= Ast.lineno n) (walk_queue (sizes b) b) ->
  Layout.lines_from_one b.
Proof.
  intros H n W. rewrite Forall_forall in H.
  apply H, WalkFacts.walk_queue_visits, W.
Qed.

Lemma mixed_lines : Layout.lines_from_one Layout.mixed_body.
Proof. apply walked_lines. cbn. repeat constructor; discriminate. Qed.

End OutputFacts.

(** X6: for a module whose nodes have line numbers from 1 on, as the
    parser gives them, the sorted records of [docs2md.py] are the record of
    the module, then the import records in the order of [ast.walk], then
    the records of the classes and functions sorted by line number, which
    are all from 1 on. *)
Theorem X6_module_imports_declarations (ast_parse : string -> option AST)
    (source : string) (f : option IO) (b : list Ast.node) :
  ast_parse source = Some (Module b) ->
  Layout.lines_from_one b ->
  Docs2md.iter_docstrings ast_parse source f
  = (Layout.module_record b
     :: Spec.import_records (walk (Module b))
     ++ Py.sorted lineno (Layout.declarations (Py.splitlines source) b))%list
  /\ Forall (fun r => 1 <= lineno r /\ Spec.is_import (node r) = false)
       (Py.sorted lineno (Layout.declarations (Py.splitlines source) b)).
Proof.
  intros H L. split; [exact (OutputFacts.records_layout ast_parse source f b H L)|].
  pose proof (OutputFacts.declarations_lines (Py.splitlines source) b L) as A.
  pose proof (OutputFacts.declarations_not_import (Py.splitlines source) b) as B.
  rewrite Forall_forall in *. intros r Hr. split; [apply A | apply B]; exact Hr.
Qed.

(** X6 at [Examples.mixed_source]. *)
Lemma X6_module_imports_declarations_witness :
  Examples.ast_parse Examples.mixed_source = Some (Module Layout.mixed_body)
  /\ Layout.lines_from_one Layout.mixed_body
  /\ (Docs2md.iter_docstrings Examples.ast_parse Examples.mixed_source None
      = (Layout.module_record Layout.mixed_body
         :: Spec.import_records (walk (Module Layout.mixed_body))
         ++ Py.sorted lineno
              (Layout.declarations (Py.splitlines Examples.mixed_source)
                 Layout.mixed_body))%list
      /\ Forall (fun r => 1 <= lineno r /\ Spec.is_import (node r) = false)
           (Py.sorted lineno
              (Layout.declarations (Py.splitlines Examples.mixed_source)
                 Layout.mixed_body))).
Proof.
  split; [reflexivity|]. split; [exact OutputFacts.mixed_lines|].
  exact (X6_module_imports_declarations Examples.ast_parse Examples.mixed_source
           None Layout.mixed_body eq_refl OutputFacts.mixed_lines).
Defined.

(** X7: for such a module the output of [docs2md.py] is the heading and
    the text of the module, then the section of the imports (its heading
    and, for each import in the order of [ast.walk], a bullet and an empty
    text; nothing when there is no import), then for each class and
    function, by line number, its heading and its text. *)
Theorem X7_output_layout (ast_parse : string -> option AST)
    (source : source_arg) (module : string) (f : option IO) (b : list Ast.node) :
  ast_parse (snd (resolve source module)) = Some (Module b) ->
  Layout.lines_from_one b ->
  Docs2md.chunks ast_parse source module f
  = (Layout.declared (fst (resolve source module)) (Layout.module_record b)
     ++ Layout.imports_section (fst (resolve source module))
          (Spec.import_records (walk (Module b)))
     ++ flat_map (Layout.declared (fst (resolve source module)))
          (Py.sorted lineno
             (Layout.declarations (Py.splitlines (snd (resolve source module))) b)))%list.
Proof.
  intros H L. rewrite RenderFacts.chunks_render_all.
  rewrite (OutputFacts.records_layout ast_parse _ f b H L).
  cbn [Spec.render_all].
  rewrite LayoutFacts.render_record_declared by reflexivity.
  rewrite LayoutFacts.render_all_imports_first.
  - reflexivity.
  - apply ExtractFacts.import_records_are_imports.
  - apply OutputFacts.declarations_not_import.
Qed.

(** X7 at [Examples.mixed_source], given as the text of a file. *)
Lemma X7_output_layout_witness :
  Examples.ast_parse
    (snd (resolve (File (Some "pkg/mixed.py") Examples.mixed_source) "fallback"))
  = Some (Module Layout.mixed_body)
  /\ Layout.lines_from_one Layout.mixed_body
  /\ Docs2md.chunks Examples.ast_parse
       (File (Some "pkg/mixed.py") Examples.mixed_source) "fallback" None
     = (Layout.declared
          (fst (resolve (File (Some "pkg/mixed.py") Examples.mixed_source) "fallback"))
          (Layout.module_record Layout.mixed_body)
        ++ Layout.imports_section
             (fst (resolve (File (Some "pkg/mixed.py") Examples.mixed_source) "fallback"))
             (Spec.import_records (walk (Module Layout.mixed_body)))
        ++ flat_map
             (Layout.declared
                (fst (resolve (File (Some "pkg/mixed.py") Examples.mixed_source)
                        "fallback")))
             (Py.sorted lineno
                (Layout.declarations
                   (Py.splitlines
                      (snd (resolve (File (Some "pkg/mixed.py") Examples.mixed_source)
                              "fallback")))
                   Layout.mixed_body)))%list.
Proof.
  split; [reflexivity|]. split; [exact OutputFacts.mixed_lines|].
  exact (X7_output_layout Examples.ast_parse
           (File (Some "pkg/mixed.py") Examples.mixed_source) "fallback" None
           Layout.mixed_body eq_refl OutputFacts.mixed_lines).
Defined.

(** X8: the bullets of the imports come in the order in which [ast.walk]
    yields the import statements, breadth first, not in the order of their
    lines: an import inside a function comes after the imports of the
    module that follow the function. *)
Theorem X8_imports_in_walk_order (ast_parse : string -> option AST)
    (source : source_arg) (module : string) (f : option IO) (tree : AST) :
  ast_parse (snd (resolve source module)) = Some tree ->
  filter Spec.is_import_bullet (Docs2md.chunks ast_parse source module f)
  = map (fun r => ImportBullet (Py.opt_or (name r) (fst (resolve source module))))
      (Spec.import_records (walk tree)).
Proof.
  intros H. rewrite RenderFacts.chunks_render_all.
  rewrite LayoutFacts.bullets_of_render_all. f_equal.
  unfold Docs2md.iter_docstrings, Docs2md.parse_docstrings. rewrite H.
  cbn [events].
  rewrite (MoreFacts.filter_sorted_one_key lineno
             (fun r => Spec.is_import (node r)) 0).
  - apply ExtractFacts.visit_import_records.
  - apply LayoutFacts.imports_at_line_zero.
Qed.

(** X8 at a function that imports [a] on line 2, followed by an import of
    [b] on line 3: the bullet of [b] comes first. *)
Lemma X8_imports_in_walk_order_witness :
  (fun _ : string => Some Layout.nested_import_tree)
    (snd (resolve (Text Layout.nested_import_source) "fallback"))
  = Some Layout.nested_import_tree
  /\ filter Spec.is_import_bullet
       (Docs2md.chunks (fun _ => Some Layout.nested_import_tree)
          (Text Layout.nested_import_source) "fallback" None)
     = [ImportBullet "b"; ImportBullet "a"].
Proof.
  split; [reflexivity|].
  rewrite (X8_imports_in_walk_order (fun _ => Some Layout.nested_import_tree)
             (Text Layout.nested_import_source) "fallback" None Layout.nested_import_tree eq_refl).
  reflexivity.
Defined.

(** X9: the two copies yield tuples for the same nodes in the same order,
    with the same class and name, and with the same text for every tuple
    that is not one of a function; they differ in the line numbers and in
    the text of the functions only. *)
Theorem X9_copies_agree (ast_parse : string -> option AST) (source : string)
    (import_file : option IO) :
  map Layout.common
    (yields (events (Docs2md.parse_docstrings ast_parse source import_file)))
  = map Layout.common
      (yields (events (Doc2md.parse_docstrings ast_parse source import_file))).
Proof.
  unfold Docs2md.parse_docstrings, Doc2md.parse_docstrings.
  destruct (ast_parse source) as [tree|]; [|reflexivity].
  cbn [events]. induction (walk tree) as [|n ns IH]; [reflexivity|].
  cbn [flat_map]. rewrite !ToolFacts.yields_app, !map_app, IH.
  rewrite LayoutFacts.common_visit. reflexivity.
Qed.

(** * The conversion of one file *)
Module MainFacts.
Import Ast Tool.

Lemma written_to_app (file : string) (a b : list Main.io) :
  Main.written_to file (a ++ b)
  = (Main.written_to file a ++ Main.written_to file b)%list.
Proof. unfold Main.written_to. apply flat_map_app. Qed.

Lemma printed_app (a b : list Main.io) :
  Main.printed (a ++ b) = (Main.printed a ++ Main.printed b)%list.
Proof. unfold Main.printed. apply flat_map_app. Qed.

(** What the loop passes on to the import file: the writes of the
    renderer, when the markdown file is another file. *)
Lemma passed_to_import (ip : string) (md : option string)
    (evs : list (event string)) :
  md <> Some ip ->
  Main.written_to ip (flat_map (Main.pass_on (Some ip) md) evs) = writes evs.
Proof.
  intros H. induction evs as [|e evs IH]; [reflexivity|].
  cbn [flat_map]. rewrite written_to_app, IH. destruct e as [d|c]; cbn.
  - rewrite String.eqb_refl. reflexivity.
  - destruct md as [m|]; cbn; [|reflexivity].
    destruct (m =? ip)%string eqn:E; [|reflexivity].
    apply String.eqb_eq in E. subst m. elim H. reflexivity.
Qed.

(** What the loop writes to the markdown file: the chunks, when the import
    file is another file. *)
Lemma passed_to_markdown (imp : option string) (md : string)
    (evs : list (event string)) :
  imp <> Some md ->
  Main.written_to md (flat_map (Main.pass_on imp (Some md)) evs) = yields evs.
Proof.
  intros H. induction evs as [|e evs IH]; [reflexivity|].
  cbn [flat_map]. rewrite written_to_app, IH. destruct e as [d|c]; cbn.
  - destruct imp as [i|]; cbn; [|reflexivity].
    destruct (i =? md)%string eqn:E; [|reflexivity].
    apply String.eqb_eq in E. subst i. elim H. reflexivity.
  - rewrite String.eqb_refl. reflexivity.
Qed.

Lemma passed_to_print (imp : option string) (evs : list (event string)) :
  Main.printed (flat_map (Main.pass_on imp None) evs) = yields evs.
Proof.
  induction evs as [|e evs IH]; [reflexivity|].
  cbn [flat_map]. rewrite printed_app, IH.
  destruct e as [d|c]; [destruct imp|]; reflexivity.
Qed.

End MainFacts.

(** X10: when the source file does not parse, [_mini_main] raises after
    it has made the directory, opened the source, opened the import file
    and written its first line, and opened the markdown file for writing:
    nothing is printed, nothing is written to the markdown file, which is
    left empty, and the import file gets neither an import nor its last
    line. *)
Theorem X10_malformed_file (path : Type) (lib : Main.pathlib path)
    (ast_parse : string -> option AST) (contents : string)
    (file_to_analyse : path) (just_print : bool) (save_import : option string)
    (docs_dir : path) :
  ast_parse contents = None ->
  Main._mini_main lib ast_parse contents file_to_analyse just_print save_import
    docs_dir
  = (([Main.Mkdir (Main.str lib docs_dir);
       Main.Open (Main.str lib file_to_analyse) "r"]
      ++ (match Main.import_path lib save_import with
          | Some f =>
              [Main.Open f "a+";
               Main.WriteTo f (Main.import_first_line lib file_to_analyse)]
          | None => []
          end)
      ++ (if just_print then []
          else [Main.Open (Main.md_path lib file_to_analyse docs_dir) "w"])
      ++ [Main.Read (Main.str lib file_to_analyse)]
      ++ (if just_print then []
          else [Main.Close (Main.md_path lib file_to_analyse docs_dir)])
      ++ (match Main.import_path lib save_import with
          | Some f => [Main.Close f]
          | None => []
          end)
      ++ [Main.Close (Main.str lib file_to_analyse)])%list,
     Some SyntaxError).
Proof.
  intros H. unfold Main._mini_main.
  destruct (MoreFacts.yield_docstrings_events ast_parse
              (File (Some (Main.str lib file_to_analyse)) contents) "<string>"
              (match Main.import_path lib save_import with
               | Some f => Some (TextIO f)
               | None => None
               end)) as [E R].
  rewrite R, E. cbn [resolve snd]. rewrite H.
  unfold Docs2md.parse_docstrings. rewrite H. cbn [events writes flat_map map app].
  destruct just_print; destruct (Main.import_path lib save_import);
    cbn [app]; rewrite <- ?app_assoc; reflexivity.
Qed.

(** X10 at a file whose text is an open parenthesis, converted to a
    markdown file with the imports saved. *)
Lemma X10_malformed_file_witness :
  Examples.ast_parse "(" = None
  /\ Main._mini_main (Main.string_paths [] "/home/u") Examples.ast_parse "("
       "pkg/bad.py" false (Some "imports.txt") "/home/u/docs"
     = ([Main.Mkdir "/home/u/docs";
         Main.Open "pkg/bad.py" "r";
         Main.Open "/home/u/imports.txt" "a+";
         Main.WriteTo "/home/u/imports.txt"
           (Py.nl ++ "┌pkg/bad.py IMPORTS" ++ Py.nl);
         Main.Open "/home/u/docs/bad.md" "w";
         Main.Read "pkg/bad.py";
         Main.Close "/home/u/docs/bad.md";
         Main.Close "/home/u/imports.txt";
         Main.Close "pkg/bad.py"],
        Some SyntaxError).
Proof.
  split; [reflexivity|].
  rewrite (X10_malformed_file string (Main.string_paths [] "/home/u")
             Examples.ast_parse "(" "pkg/bad.py" false (Some "imports.txt")
             "/home/u/docs" eq_refl).
  reflexivity.
Defined.

(** X11: when the source file parses and the import file is not the
    markdown file, what [_mini_main] writes to the import file is its first
    line, then one line for each import statement in the order of
    [ast.walk], then its last line, whether the chunks are printed or
    written; and [_mini_main] does not raise. *)
Theorem X11_import_file_framing (path : Type) (lib : Main.pathlib path)
    (ast_parse : string -> option AST) (contents : string)
    (file_to_analyse : path) (just_print : bool) (save_import : option string)
    (docs_dir : path) (tree : AST) (import_fl : string) :
  ast_parse contents = Some tree ->
  Main.import_path lib save_import = Some import_fl ->
  import_fl <> Main.md_path lib file_to_analyse docs_dir ->
  Main.written_to import_fl
    (fst (Main._mini_main lib ast_parse contents file_to_analyse just_print
            save_import docs_dir))
  = (Main.import_first_line lib file_to_analyse
     :: map (fun imports => ("├" ++ imports ++ Py.nl)%string)
          (Spec.import_names (walk tree))
     ++ [Main.import_last_line lib file_to_analyse])%list
  /\ snd (Main._mini_main lib ast_parse contents file_to_analyse just_print
            save_import docs_dir) = None.
Proof.
  intros H I N. unfold Main._mini_main. rewrite I.
  destruct (MoreFacts.yield_docstrings_events ast_parse
              (File (Some (Main.str lib file_to_analyse)) contents) "<string>"
              (Some (TextIO import_fl))) as [E R].
  rewrite R. cbn [resolve snd] in *. rewrite H. cbn [fst snd].
  split; [|reflexivity].
  rewrite !MainFacts.written_to_app.
  rewrite MainFacts.passed_to_import.
  - rewrite E. destruct (MoreFacts.yields_of_run
                  (writes (events (Docs2md.parse_docstrings ast_parse contents
                                     (Some (TextIO import_fl)))))
                  (match ast_parse contents with
                   | Some _ =>
                       map text
                         (Docs2md.chunks ast_parse
                            (File (Some (Main.str lib file_to_analyse)) contents)
                            "<string>" (Some (TextIO import_fl)))
                   | None => []
                   end)) as [_ W].
    rewrite W. unfold Docs2md.parse_docstrings. rewrite H. cbn [events].
    rewrite ExtractFacts.visit_writes.
    destruct just_print; cbn; rewrite String.eqb_refl;
      try (destruct (Main.md_path lib file_to_analyse docs_dir =? import_fl)%string eqn:Q;
           [apply String.eqb_eq in Q; elim N; symmetry; exact Q|]);
      cbn; rewrite ?app_nil_r; reflexivity.
  - destruct just_print; [discriminate|]. intros Q. injection Q as Q.
    elim N. symmetry. exact Q.
Qed.

(** X11 at [Examples.mixed_source], printed, with the imports saved. *)
Lemma X11_import_file_framing_witness :
  Examples.ast_parse Examples.mixed_source = Some Examples.mixed_tree
  /\ Main.import_path (Main.string_paths [] "/home/u") (Some "imports.txt")
     = Some "/home/u/imports.txt"
  /\ "/home/u/imports.txt"
     <> Main.md_path (Main.string_paths [] "/home/u") "pkg/mixed.py" "/home/u/docs"
  /\ Main.written_to "/home/u/imports.txt"
       (fst (Main._mini_main (Main.string_paths [] "/home/u") Examples.ast_parse
               Examples.mixed_source "pkg/mixed.py" true (Some "imports.txt")
               "/home/u/docs"))
     = [Py.nl ++ "┌pkg/mixed.py IMPORTS" ++ Py.nl;
        "├os" ++ Py.nl;
        "└" ++ Main.times "─" 23 ++ Py.nl ++ Py.nl].
Proof.
  assert (N : "/home/u/imports.txt"
              <> Main.md_path (Main.string_paths [] "/home/u") "pkg/mixed.py"
                   "/home/u/docs") by (vm_compute; discriminate).
  split; [reflexivity|]. split; [reflexivity|]. split; [exact N|].
  destruct (X11_import_file_framing string (Main.string_paths [] "/home/u")
              Examples.ast_parse Examples.mixed_source "pkg/mixed.py" true
              (Some "imports.txt") "/home/u/docs" Examples.mixed_tree
              "/home/u/imports.txt" eq_refl eq_refl N) as [E _].
  rewrite E. reflexivity.
Defined.

(** X12: when the import file is not the markdown file, what [_mini_main]
    writes to the markdown file is what it passes to [print] when asked to
    print, piece by piece: the chunks of the renderer of the file, which
    are the same with and without an import file.  ([print] ends each piece
    with one more newline.) *)
Theorem X12_markdown_is_what_is_printed (path : Type) (lib : Main.pathlib path)
    (ast_parse : string -> option AST) (contents : string)
    (file_to_analyse : path) (save_import : option string) (docs_dir : path) :
  Main.import_path lib save_import
  <> Some (Main.md_path lib file_to_analyse docs_dir) ->
  Main.written_to (Main.md_path lib file_to_analyse docs_dir)
    (fst (Main._mini_main lib ast_parse contents file_to_analyse false
            save_import docs_dir))
  = yields (events (Docs2md.yield_docstrings ast_parse
                      (File (Some (Main.str lib file_to_analyse)) contents)
                      "<string>" None))
  /\ Main.printed
       (fst (Main._mini_main lib ast_parse contents file_to_analyse true
               save_import docs_dir))
     = yields (events (Docs2md.yield_docstrings ast_parse
                         (File (Some (Main.str lib file_to_analyse)) contents)
                         "<string>" None)).
Proof.
  intros N.
  assert (Y : yields (events (Docs2md.yield_docstrings ast_parse
                                (File (Some (Main.str lib file_to_analyse)) contents)
                                "<string>"
                                (match Main.import_path lib save_import with
                                 | Some f => Some (TextIO f)
                                 | None => None
                                 end)))
              = yields (events (Docs2md.yield_docstrings ast_parse
                                  (File (Some (Main.str lib file_to_analyse)) contents)
                                  "<string>" None))).
  { destruct (Main.import_path lib save_import) as [f|]; [|reflexivity].
    apply yields_any_import_file. }
  unfold Main._mini_main. split.
  - destruct (raised (Docs2md.yield_docstrings ast_parse
                        (File (Some (Main.str lib file_to_analyse)) contents)
                        "<string>"
                        (match Main.import_path lib save_import with
                         | Some f => Some (TextIO f)
                         | None => None
                         end)));
      cbn [fst]; rewrite !MainFacts.written_to_app;
      rewrite MainFacts.passed_to_markdown by exact N; rewrite Y;
      destruct (Main.import_path lib save_import) as [f|]; cbn;
      rewrite ?String.eqb_refl;
      try (destruct (f =? Main.md_path lib file_to_analyse docs_dir)%string eqn:Q;
           [apply String.eqb_eq in Q; elim N; f_equal; exact Q|]);
      cbn; rewrite ?app_nil_r; reflexivity.
  - destruct (raised (Docs2md.yield_docstrings ast_parse
                        (File (Some (Main.str lib file_to_analyse)) contents)
                        "<string>"
                        (match Main.import_path lib save_import with
                         | Some f => Some (TextIO f)
                         | None => None
                         end)));
      cbn [fst]; rewrite !MainFacts.printed_app;
      rewrite MainFacts.passed_to_print; rewrite Y;
      destruct (Main.import_path lib save_import) as [f|]; cbn;
      rewrite ?app_nil_r; reflexivity.
Qed.

(** X12 at [Examples.mixed_source] with the imports saved. *)
Lemma X12_markdown_is_what_is_printed_witness :
  Main.import_path (Main.string_paths [] "/home/u") (Some "imports.txt")
  <> Some (Main.md_path (Main.string_paths [] "/home/u") "pkg/mixed.py"
             "/home/u/docs")
  /\ Main.written_to
       (Main.md_path (Main.string_paths [] "/home/u") "pkg/mixed.py" "/home/u/docs")
       (fst (Main._mini_main (Main.string_paths [] "/home/u") Examples.ast_parse
               Examples.mixed_source "pkg/mixed.py" false (Some "imports.txt")
               "/home/u/docs"))
     = Main.printed
         (fst (Main._mini_main (Main.string_paths [] "/home/u") Examples.ast_parse
                 Examples.mixed_source "pkg/mixed.py" true (Some "imports.txt")
                 "/home/u/docs")).
Proof.
  assert (N : Main.import_path (Main.string_paths [] "/home/u") (Some "imports.txt")
              <> Some (Main.md_path (Main.string_paths [] "/home/u") "pkg/mixed.py"
                         "/home/u/docs")) by (vm_compute; discriminate).
  split; [exact N|].
  destruct (X12_markdown_is_what_is_printed string
              (Main.string_paths [] "/home/u") Examples.ast_parse
              Examples.mixed_source "pkg/mixed.py" (Some "imports.txt")
              "/home/u/docs" N) as [E1 E2].
  rewrite E1, E2. reflexivity.
Defined.

(** X13: [_make_path_sane] returns a path that exists or is absolute,
    where the working directory joined with a path is absolute; a path
    that exists is returned as it is, also when it is relative, and so is an
    absolute path. *)
Theorem X13_make_path_sane (path : Type) (lib : Main.pathlib path) (p : string) :
  (forall q, Main.is_absolute lib (Main.truediv lib (Main.cwd lib) q) = true) ->
  (Main.path_exists lib (Main._make_path_sane lib p)
   || Main.is_absolute lib (Main._make_path_sane lib p) = true)
  /\ (Main.path_exists lib (Main.Path lib p) = true ->
      Main._make_path_sane lib p = Main.Path lib p)
  /\ (Main.is_absolute lib (Main.Path lib p) = true ->
      Main._make_path_sane lib p = Main.Path lib p)
  /\ (Main.path_exists lib (Main.Path lib p) = false ->
      Main.is_absolute lib (Main.Path lib p) = false ->
      Main._make_path_sane lib p
      = Main.truediv lib (Main.cwd lib) (Main.Path lib p)).
Proof.
  intros H. unfold Main._make_path_sane.
  destruct (Main.path_exists lib (Main.Path lib p)) eqn:E;
    destruct (Main.is_absolute lib (Main.Path lib p)) eqn:A; cbn [negb].
  - rewrite E. repeat split; try reflexivity; discriminate.
  - rewrite E. repeat split; try reflexivity; discriminate.
  - rewrite A, orb_true_r. repeat split; try reflexivity; discriminate.
  - rewrite H, orb_true_r. repeat split; try reflexivity; discriminate.
Qed.

(** X13 with paths as strings, where [docs] exists in the working
    directory and [out] does not. *)
Lemma X13_make_path_sane_witness :
  (forall q,
      Main.is_absolute (Main.string_paths ["docs"] "/home/u")
        (Main.truediv (Main.string_paths ["docs"] "/home/u")
           (Main.cwd (Main.string_paths ["docs"] "/home/u")) q) = true)
  /\ Main._make_path_sane (Main.string_paths ["docs"] "/home/u") "docs" = "docs"
  /\ Main._make_path_sane (Main.string_paths ["docs"] "/home/u") "out"
     = "/home/u/out".
Proof.
  assert (H : forall q,
             Main.is_absolute (Main.string_paths ["docs"] "/home/u")
               (Main.truediv (Main.string_paths ["docs"] "/home/u")
                  (Main.cwd (Main.string_paths ["docs"] "/home/u")) q) = true)
    by (intros q; reflexivity).
  split; [exact H|].
  destruct (X13_make_path_sane string (Main.string_paths ["docs"] "/home/u")
              "docs" H) as [_ [E1 _]].
  destruct (X13_make_path_sane string (Main.string_paths ["docs"] "/home/u")
              "out" H) as [_ [_ [_ E2]]].
  split; [apply E1; reflexivity | apply E2; reflexivity].
Defined.

(** A slice that ends at a negative index ends as far from the end of the
    list. *)
Lemma slice_to_negative (l : list string) (a b : Z) :
  1 <= a -> b < 0 -> 0 <= b + Z.of_nat (List.length l) ->
  Py.slice l (a - 1) b
  = Spec.lines_through l a (b + Z.of_nat (List.length l)).
Proof.
  intros Ha Hb Hl.
  rewrite <- PyFacts.slice_lines_through by lia.
  unfold Py.slice, Py.slice_index.
  assert (E1 : (b <? 0) = true) by (apply Z.ltb_lt; lia).
  assert (E2 : (b + Z.of_nat (List.length l) <? 0) = false)
    by (apply Z.ltb_ge; lia).
  rewrite E1, E2.
  replace (Z.max 0 (b + Z.of_nat (List.length l)))
    with (Z.min (b + Z.of_nat (List.length l)) (Z.of_nat (List.length l))) by lia.
  reflexivity.
Qed.

(** X14: in [doc2md.py] the line number of a documented function is
    negative when its docstring has more lines than the line number of the
    string (a parser that puts a string on its first line gives such trees).
    The slice of the declaration then ends that many lines before the end
    of the source: the fenced block holds the source lines from the line of
    the function to line [len(source_lines) + lineno], body included. *)
Theorem X14_doc2md_negative_line_number (source_lines : list string) (n : AST)
    (node_lineno : Z) (body0 : Ast.node) :
  function_parts n = Some (node_lineno, body0) ->
  1 <= node_lineno ->
  Doc2md.anchor n < 0 ->
  0 <= Doc2md.anchor n + Z.of_nat (List.length source_lines) ->
  exists r,
    Doc2md.declaration source_lines n = [r]
    /\ lineno r = Doc2md.anchor n
    /\ docstring r
       = "```python" ++ Py.nl
         ++ Py.dedent (Py.join Py.nl
              (Spec.lines_through source_lines node_lineno
                 (Z.of_nat (List.length source_lines) + lineno r)))
         ++ Py.nl ++ "```" ++ Py.nl
         ++ Py.opt_or (get_docstring n) "**UNDOCUMENTED**".
Proof.
  intros F H1 H2 H3.
  pose proof (ExtractFacts.function_parts_declare n _ _ F) as D.
  destruct (ExtractFacts.declare_type n D) as [t [T _]].
  unfold Doc2md.declaration. rewrite T, D, F.
  eexists. split; [reflexivity|]. split; [reflexivity|].
  cbn [docstring lineno]. unfold Doc2md.function_declaration.
  assert (E : (node_lineno =? Doc2md.anchor n) = false) by (apply Z.eqb_neq; lia).
  rewrite E, slice_to_negative by lia.
  rewrite (Z.add_comm (Doc2md.anchor n)). reflexivity.
Qed.

(** X14 at a function on line 1 with a docstring of three lines from line
    2 on, in a source of five lines: the line number is -1 and the block
    holds lines 1 to 4. *)
Lemma X14_doc2md_negative_line_number_witness :
  function_parts Layout.long_doc_function
  = Some (1, Expr 2 (Str 2 ("a" ++ Py.nl ++ "    b" ++ Py.nl ++ "    c")))
  /\ 1 <= 1
  /\ Doc2md.anchor Layout.long_doc_function < 0
  /\ 0 <= Doc2md.anchor Layout.long_doc_function
          + Z.of_nat (List.length Layout.long_doc_lines)
  /\ Doc2md.declaration Layout.long_doc_lines Layout.long_doc_function
     = [mkrecord ast_FunctionDef (Some "f") (-1)
          ("```python" ++ Py.nl
           ++ "def f():" ++ Py.nl ++ "    " ++ Examples.q3 ++ "a" ++ Py.nl
           ++ "    b" ++ Py.nl ++ "    c" ++ Examples.q3 ++ Py.nl
           ++ "```" ++ Py.nl ++ "a" ++ Py.nl ++ "b" ++ Py.nl ++ "c")].
Proof.
  assert (A : Doc2md.anchor Layout.long_doc_function < 0) by reflexivity.
  assert (B : 0 <= Doc2md.anchor Layout.long_doc_function
                   + Z.of_nat (List.length Layout.long_doc_lines))
    by (vm_compute; discriminate).
  assert (C : 1 <= 1) by lia.
  split; [reflexivity|]. split; [exact C|]. split; [exact A|]. split; [exact B|].
  destruct (X14_doc2md_negative_line_number Layout.long_doc_lines
              Layout.long_doc_function 1
              (Expr 2 (Str 2 ("a" ++ Py.nl ++ "    b" ++ Py.nl ++ "    c")))
              eq_refl C A B) as [r [E _]].
  reflexivity.
Defined.
